(** * SunCheck: the checklist generator of [server/routes.ts]

    A shallow embedding of [generateChecklistItems] and [getStructureItems],
    and of the string-configuration computation that the analysis and report
    endpoints repeat.

    JavaScript numbers are IEEE 754 binary64 values: they are modelled by
    Rocq's primitive [float], so every product, quotient and comparison below
    rounds exactly as the engine's does.  JavaScript strings are modelled by
    [string], holding the UTF-8 bytes of the source text. *)

From Stdlib Require Import ZArith List String Ascii Bool Lia.
From Stdlib Require Import Floats DecimalString.
From Stdlib Require Uint63.
Import ListNotations.

Set Warnings "-inexact-float".

Local Open Scope Z_scope.

(* ================================================================== *)
(** * The ECMAScript built-ins the generator calls *)
(* ================================================================== *)

Module JS.

(** A JavaScript [number]. *)
Definition number := float.

(** The number denoted by an integer literal (also: the value of a JSON
    integer).  Exact up to 2^53. *)
Definition of_Z (z : Z) : number :=
  if z <? 0 then PrimFloat.opp (PrimFloat.of_uint63 (Uint63.of_Z (- z)))
  else PrimFloat.of_uint63 (Uint63.of_Z z).

(** ** Math.ceil

    A finite double is [m * 2^e]; it is already an integer when [e >= 0].
    Otherwise the integer part [q] and remainder [r] of [m / 2^(-e)] give
    the ceiling: [q] or [q+1] for a positive argument, [-q] for a negative
    one ([-0] when [q = 0]). NaN, the zeros and the infinities are
    returned unchanged. *)
Definition Math_ceil (x : number) : number :=
  match Prim2SF x with
  | S754_finite s m e =>
      if 0 <=? e then x
      else
        let d := 2 ^ (- e) in
        let q := Z.pos m / d in
        let r := Z.pos m mod d in
        if s then (if q =? 0 then PrimFloat.neg_zero else of_Z (- q))
        else of_Z (if r =? 0 then q else q + 1)
  | _ => x
  end.

(** ** Math.max

    ECMA-262, Math.max: starting from [-Infinity], each argument in turn
    returns NaN if it is NaN, replaces a highest of [-0] if it is [+0], and
    replaces the highest if it is greater. *)
Definition is_pos_zero (x : number) : bool :=
  PrimFloat.is_zero x && negb (PrimFloat.get_sign x).

Definition is_neg_zero (x : number) : bool :=
  PrimFloat.is_zero x && PrimFloat.get_sign x.

Definition max_step (highest : option number) (n : number) : option number :=
  match highest with
  | None => None
  | Some h =>
      if PrimFloat.is_nan n then None
      else
        let h := if is_pos_zero n && is_neg_zero h then PrimFloat.zero else h in
        Some (if PrimFloat.ltb h n then n else h)
  end.

Definition Math_max_list (args : list number) : number :=
  match fold_left max_step args (Some PrimFloat.neg_infinity) with
  | Some h => h
  | None => PrimFloat.nan
  end.

Definition Math_max (a b : number) : number := Math_max_list [a; b].

(** ** Number::toString (radix 10)

    ECMA-262, Number::toString: for a finite positive [x], take integers
    [n], [k], [s] with [10^(k-1) <= s < 10^k], [s * 10^(n-k)] rounding to
    [x], and [k] as small as possible (the [s] closest to [x] when several
    fit); then lay the digits of [s] out according to [n]. *)

(** [a * 10^p < b * 2^u], [=] or [>], over the rationals. *)
Definition cmp_scaled (a p b u : Z) : comparison :=
  (a * 10 ^ Z.max p 0 * 2 ^ Z.max (- u) 0)
    ?= (b * 10 ^ Z.max (- p) 0 * 2 ^ Z.max u 0).

(** [floor (b * 2^u / 10^p)]. *)
Definition floor_scaled (b u p : Z) : Z :=
  (b * 2 ^ Z.max u 0 * 10 ^ Z.max (- p) 0)
    / (2 ^ Z.max (- u) 0 * 10 ^ Z.max p 0).

(** The [n] with [10^(n-1) <= b * 2^u < 10^n]: walk down, then up, from an
    estimate.  A double lies between [10^-324] and [10^309], so 700 steps
    each way reach [n] from any estimate in that range. *)
Fixpoint magnitude_down (fuel : nat) (b u n : Z) : Z :=
  match fuel with
  | O => n
  | S fuel' =>
      match cmp_scaled 1 (n - 1) b u with
      | Gt => magnitude_down fuel' b u (n - 1)
      | _ => n
      end
  end.

Fixpoint magnitude_up (fuel : nat) (b u n : Z) : Z :=
  match fuel with
  | O => n
  | S fuel' =>
      match cmp_scaled 1 n b u with
      | Gt => n
      | _ => magnitude_up fuel' b u (n + 1)
      end
  end.

Definition magnitude (b u : Z) : Z :=
  let n0 := ((Z.log2 b + u) * 1233) / 4096 in
  magnitude_up 700 b u (magnitude_down 700 b u n0).

(** The rounding interval of the double [m * 2^e], in units of [2^(e-2)]:
    [(lo, v, hi)].  The lower half-gap is halved at a power of two. *)
Definition rounding_interval (m : positive) (e : Z) : Z * Z * Z :=
  let v := 4 * Z.pos m in
  let lo := if (Z.pos m =? 2 ^ 52) && (-1074 <? e) then v - 1 else v - 2 in
  (lo, v, v + 2).

(** Does [s * 10^p] round to the double?  The ends of the interval belong
    to it when the mantissa is even (ties go to even). *)
Definition rounds_to (m : positive) (e : Z) (s p : Z) : bool :=
  let '(lo, _, hi) := rounding_interval m e in
  let even := Z.even (Z.pos m) in
  let above_lo :=
    match cmp_scaled s p lo (e - 2) with
    | Gt => true | Eq => even | Lt => false
    end in
  let below_hi :=
    match cmp_scaled s p hi (e - 2) with
    | Lt => true | Eq => even | Gt => false
    end in
  above_lo && below_hi.

(** The candidate with [k] digits, if one rounds to the double: the two
    [k]-digit decimals around the value, the closer first. *)
Definition candidate (m : positive) (e n k : Z) : option (Z * Z) :=
  let p := n - k in
  let s_lo := floor_scaled (Z.pos m) e p in
  let s_hi := s_lo + 1 in
  let ok_lo := (10 ^ (k - 1) <=? s_lo) && rounds_to m e s_lo p in
  let ok_hi := rounds_to m e s_hi p in
  (* 2 * value ? (s_lo + s_hi) * 10^p *)
  let side := cmp_scaled (2 * s_lo + 1) p (2 * Z.pos m) e in
  let norm s := if s =? 10 ^ k then Some (s / 10, n + 1) else Some (s, n) in
  match ok_lo, ok_hi with
  | true, true =>
      match side with
      | Gt => norm s_lo
      | Lt => norm s_hi
      | Eq => if Z.even s_lo then norm s_lo else norm s_hi
      end
  | true, false => norm s_lo
  | false, true => norm s_hi
  | false, false => None
  end.

(** The shortest candidate, trying [k = 1, 2, ...]; 17 significant digits
    always identify a double, so the search ends within 17 steps. *)
Fixpoint shortest (fuel : nat) (m : positive) (e n k : Z) : Z * Z * Z :=
  match fuel with
  | O => (Z.pos m, 1, 1)
  | S fuel' =>
      match candidate m e n k with
      | Some (s, n') => (s, n', k)
      | None => shortest fuel' m e n (k + 1)
      end
  end.

Definition digits (z : Z) : string :=
  NilZero.string_of_uint (N.to_uint (Z.to_N z)).

Fixpoint zeros (n : nat) : string :=
  match n with
  | O => EmptyString
  | S n' => String "0" (zeros n')
  end.

Definition exponent_part (n : Z) : string :=
  let e := n - 1 in
  ("e" ++ (if (e <? 0)%Z then "-" else "+") ++ digits (Z.abs e))%string.

Definition layout (s n k : Z) : string :=
  let ds := digits s in
  if (k <=? n) && (n <=? 21) then
    (ds ++ zeros (Z.to_nat (n - k)))%string
  else if (0 <? n) && (n <=? 21) then
    (substring 0 (Z.to_nat n) ds ++ "."
       ++ substring (Z.to_nat n) (Z.to_nat (k - n)) ds)%string
  else if (-6 <? n) && (n <=? 0) then
    ("0." ++ zeros (Z.to_nat (- n)) ++ ds)%string
  else if k =? 1 then
    (ds ++ exponent_part n)%string
  else
    (substring 0 1 ds ++ "." ++ substring 1 (Z.to_nat (k - 1)) ds
       ++ exponent_part n)%string.

Definition Number_toString (x : number) : string :=
  match Prim2SF x with
  | S754_nan => "NaN"
  | S754_zero _ => "0"
  | S754_infinity s => if s then "-Infinity" else "Infinity"
  | S754_finite sg m e =>
      let n0 := magnitude (Z.pos m) e in
      let '(s, n, k) := shortest 17 m e n0 1 in
      ((if sg then "-" else "") ++ layout s n k)%string
  end.

(** ** parseFloat

    ECMA-262, parseFloat: leading white space and line terminators are
    dropped; the longest prefix that is a StrDecimalLiteral is read (an
    optional sign, then [Infinity] or decimal digits with an optional
    fraction and an optional exponent); its mathematical value is rounded to
    the nearest double, ties to even.  NaN when no prefix fits. *)

(** The double nearest to [n / d], for positive [n] and [d]. *)
Definition round_ratio (n d : Z) : number :=
  let b := Z.log2 n - Z.log2 d in
  let fl :=
    if (d * 2 ^ Z.max b 0 <=? n * 2 ^ Z.max (- b) 0)%Z then b else b - 1 in
  let e := Z.max (fl - 52) (-1074) in
  let num := n * 2 ^ Z.max (- e) 0 in
  let den := d * 2 ^ Z.max e 0 in
  let q := num / den in
  let r := num mod den in
  let q :=
    match (2 * r ?= den)%Z with
    | Gt => q + 1
    | Eq => if Z.even q then q else q + 1
    | Lt => q
    end in
  if (2 ^ 1024 <=? q * 2 ^ Z.max e 0)%Z then PrimFloat.infinity
  else Z.ldexp (PrimFloat.of_uint63 (Uint63.of_Z q)) e.

Definition byte_is (c : ascii) (n : N) : bool := N.eqb (N_of_ascii c) n.

(** TAB, LF, VT, FF, CR and SP. *)
Definition is_space1 (c : ascii) : bool :=
  let n := N_of_ascii c in
  ((9 <=? n) && (n <=? 13) || (n =? 32))%N.

(** U+00A0, in UTF-8. *)
Definition is_space2 (c1 c2 : ascii) : bool :=
  byte_is c1 194 && byte_is c2 160.

(** U+1680, U+2000..U+200A, U+2028, U+2029, U+202F, U+205F, U+3000 and
    U+FEFF, in UTF-8. *)
Definition is_space3 (c1 c2 c3 : ascii) : bool :=
  let n3 := N_of_ascii c3 in
  byte_is c1 225 && byte_is c2 154 && byte_is c3 128
  || byte_is c1 226 && byte_is c2 128
     && ((128 <=? n3) && (n3 <=? 138) || (n3 =? 168) || (n3 =? 169)
         || (n3 =? 175))%N
  || byte_is c1 226 && byte_is c2 129 && byte_is c3 159
  || byte_is c1 227 && byte_is c2 128 && byte_is c3 128
  || byte_is c1 239 && byte_is c2 187 && byte_is c3 191.

Fixpoint trimStart (s : string) : string :=
  match s with
  | String c1 r1 =>
      if is_space1 c1 then trimStart r1
      else
        match r1 with
        | String c2 r2 =>
            if is_space2 c1 c2 then trimStart r2
            else
              match r2 with
              | String c3 r3 =>
                  if is_space3 c1 c2 c3 then trimStart r3 else s
              | EmptyString => s
              end
        | EmptyString => s
        end
  | EmptyString => s
  end.

Definition digit_of (c : ascii) : option Z :=
  let n := Z.of_N (N_of_ascii c) in
  if ((48 <=? n) && (n <=? 57))%Z then Some (n - 48) else None.

(** Reads DecimalDigits: the value they add to [acc], how many there were,
    and the rest of the string. *)
Fixpoint read_digits (s : string) (acc : Z) (count : Z) : Z * Z * string :=
  match s with
  | String c r =>
      match digit_of c with
      | Some d => read_digits r (10 * acc + d) (count + 1)
      | None => (acc, count, s)
      end
  | EmptyString => (acc, count, s)
  end.

(** Reads an ExponentPart if one is there in full; 0 otherwise. *)
Definition read_exponent (s : string) : Z :=
  match s with
  | String c r =>
      if byte_is c 101 || byte_is c 69 then
        let '(neg, r') :=
          match r with
          | String c' r'' =>
              if byte_is c' 45 then (true, r'')
              else if byte_is c' 43 then (false, r'')
              else (false, r)
          | EmptyString => (false, r)
          end in
        let '(v, count, _) := read_digits r' 0 0 in
        if (count =? 0)%Z then 0 else if neg then - v else v
      else 0
  | EmptyString => 0
  end.

Definition signed (neg : bool) (x : number) : number :=
  if neg then PrimFloat.opp x else x.

Definition parseFloat (input : string) : number :=
  let s := trimStart input in
  let '(neg, s) :=
    match s with
    | String c r =>
        if byte_is c 45 then (true, r)
        else if byte_is c 43 then (false, r)
        else (false, s)
    | EmptyString => (false, s)
    end in
  if prefix "Infinity" s then signed neg PrimFloat.infinity
  else
    let '(int_v, int_n, s1) := read_digits s 0 0 in
    let '(mant, frac_n, s2) :=
      match s1 with
      | String c r =>
          if byte_is c 46 then
            let '(v, total, r') := read_digits r int_v 0 in
            if ((int_n =? 0) && (total =? 0))%Z then (int_v, 0, s1)
            else (v, total, r')
          else (int_v, 0, s1)
      | EmptyString => (int_v, 0, s1)
      end in
    if ((int_n =? 0) && (frac_n =? 0))%Z then PrimFloat.nan
    else
      let p := read_exponent s2 - frac_n in
      if (mant =? 0)%Z then signed neg PrimFloat.zero
      else signed neg (round_ratio (mant * 10 ^ Z.max p 0) (10 ^ Z.max (- p) 0)).

End JS.

(* ================================================================== *)
(** * server/routes.ts *)
(* ================================================================== *)

Module Routes.

Import JS.

Local Open Scope string_scope.
Local Open Scope float_scope.

(** The request body accepted by [insertProjectSchema]: the three fields the
    generator reads, and the ones it does not. *)
Record ProjectData := {
  name : string;
  address : option string;
  phone : option string;
  roofType : string;
  inverterPower : string;
  inverterBrand : option string;
  solarPanelsCount : number;
  installationDate : option string;
  installer : option string;
  platformLogin : option string;
  platformPassword : option string;
  platformUrl : option string;
  platformNotes : option string;
  status : option string
}.

(** An element of the array the generator returns. *)
Record ChecklistItem := {
  title : string;
  description : string;
  category : string
}.

(** Template-literal substitution of a number. *)
Local Notation "'$' x" := (Number_toString x) (at level 35, only parsing).

(** [Array.prototype.push]: appends its arguments to the array. *)
Definition push {A} (items : list A) (args : list A) : list A :=
  (items ++ args)%list.

(** Lines 21-30: the string configuration, [(stringConfig, numberOfStrings,
    panelsPerString)]. *)
Definition stringConfiguration (solarPanelsCount : number)
  : string * number * number :=
  let stringConfig := "2x2" in
  let numberOfStrings := 2 in
  let panelsPerString := Math_ceil (solarPanelsCount / 2) in
  if 8 <? solarPanelsCount then
    ("3x3", 3, Math_ceil (solarPanelsCount / 3))
  else (stringConfig, numberOfStrings, panelsPerString).

(** Lines 53-56: the AC breaker rating. *)
Definition breakerRating (adjustedPower : number) : number :=
  let breakerCurrent := 32 in
  let breakerCurrent := if 5 <? adjustedPower then 40 else breakerCurrent in
  let breakerCurrent := if 8 <? adjustedPower then 50 else breakerCurrent in
  breakerCurrent.

Definition getStructureItems (roofType : string) (panelCount : number)
    (numberOfStrings : option number) : list ChecklistItem :=
  let numberOfStrings :=
    match numberOfStrings with Some v => v | None => 1 end in
  let panelsPerRow := Math_ceil (panelCount / numberOfStrings) in
  let railLength := Math_ceil (panelsPerRow * 2.1) in
  let totalRailLength := railLength * numberOfStrings in
  let fixationPoints := Math_ceil (panelCount * 1.2) in
  if String.eqb roofType "ceramico" then
    [ {| title := "Ganchos para Telha Cerâmica (" ++ $fixationPoints ++ " un)";
         description := "Ganchos ajustáveis em aço inox 316 para telhas cerâmicas, com vedação EPDM dupla, suporte para " ++ $numberOfStrings ++ " fileiras";
         category := "estrutura" |};
      {| title := "Trilhos de Alumínio Anodizado (" ++ $totalRailLength ++ "m)";
         description := "Trilhos 40x40mm para " ++ $numberOfStrings ++ " strings de " ++ $panelsPerRow ++ " painéis, incluindo emendas, terminais e reguladores";
         category := "estrutura" |};
      {| title := "Grampos de Fixação (" ++ $(panelCount * 2) ++ " un)";
         description := $(Math_ceil (panelCount * 0.2)) ++ " grampos terminais + " ++ $(Math_ceil (panelCount * 1.8)) ++ " intermediários, alumínio anodizado";
         category := "estrutura" |};
      {| title := "Kit de Fixação Cerâmica (" ++ $fixationPoints ++ " kits)";
         description := "Parafusos M8x80, buchas S8, arruelas e vedações EPDM para fixação em estrutura cerâmica";
         category := "estrutura" |} ]
  else if String.eqb roofType "metalico" then
    [ {| title := "Grampos Trapezoidais (" ++ $(Math_ceil (fixationPoints * 0.7)) ++ " un)";
         description := "Grampos para telha trapezoidal/zipada, adequados para " ++ $numberOfStrings ++ " fileiras, com vedação dupla EPDM";
         category := "estrutura" |};
      {| title := "Trilhos de Alumínio Anodizado (" ++ $totalRailLength ++ "m)";
         description := "Sistema de trilhos 40x40mm para estrutura metálica, " ++ $numberOfStrings ++ " strings, com conectores e terminais";
         category := "estrutura" |};
      {| title := "Grampos de Fixação (" ++ $(panelCount * 2) ++ " un)";
         description := "Grampos terminais e intermediários para fixação de " ++ $panelCount ++ " painéis em " ++ $numberOfStrings ++ " strings";
         category := "estrutura" |};
      {| title := "Parafusos Autoperfurantes (" ++ $(fixationPoints * 2) ++ " un)";
         description := "Parafusos 12x80mm com vedação EPDM, brocas adequadas para perfil metálico";
         category := "estrutura" |} ]
  else if String.eqb roofType "fibrocimento" then
    [ {| title := "Ganchos para Telha Fibrocimento (" ++ $fixationPoints ++ " un)";
         description := "Ganchos específicos para telhas de fibrocimento/Brasilit, em aço galvanizado, com vedação EPDM reforçada para " ++ $numberOfStrings ++ " fileiras";
         category := "estrutura" |};
      {| title := "Trilhos de Alumínio Anodizado (" ++ $totalRailLength ++ "m)";
         description := "Sistema de trilhos 40x40mm reforçado para fibrocimento, " ++ $numberOfStrings ++ " strings de " ++ $panelsPerRow ++ " painéis, com conectores especiais";
         category := "estrutura" |};
      {| title := "Grampos de Fixação (" ++ $(panelCount * 2) ++ " un)";
         description := "Grampos terminais e intermediários em alumínio anodizado, adequados para carga de vento em fibrocimento";
         category := "estrutura" |};
      {| title := "Kit de Fixação Fibrocimento (" ++ $fixationPoints ++ " kits)";
         description := "Parafusos autoperfurantes 12x100mm, buchas especiais, arruelas metálicas e vedações EPDM duplas para telhas de fibrocimento";
         category := "estrutura" |};
      {| title := "Reforço Estrutural";
         description := $(Math_ceil (fixationPoints * 0.3)) ++ " perfis de reforço interno em aço galvanizado para distribuição de cargas em telhas fibrocimento";
         category := "estrutura" |} ]
  else if String.eqb roofType "solo" then
    let foundationPoints := Math_ceil (numberOfStrings * 2) in
    [ {| title := "Estrutura Solo Fixa (" ++ $(Math_ceil (panelCount / 6)) ++ " kits)";
         description := "Sistema de estrutura fixa para solo, cada kit comporta 6 painéis, inclinação 20°, para " ++ $numberOfStrings ++ " strings";
         category := "estrutura" |};
      {| title := "Fundações de Concreto (" ++ $foundationPoints ++ " un)";
         description := "Blocos de fundação 40x40x60cm ou estacas hélice contínua, adequadas para " ++ $panelCount ++ " painéis";
         category := "estrutura" |};
      {| title := "Kit de Ancoragem (" ++ $foundationPoints ++ " kits)";
         description := "Chumbadores M16x200mm, porcas, arruelas e graute para fixação da estrutura nas fundações";
         category := "estrutura" |};
      {| title := "Sistema de Aterramento Solo";
         description := "Malha de aterramento com " ++ $foundationPoints ++ " hastes cobreadas interligadas, cabo nu 25mm²";
         category := "estrutura" |} ]
  else [].

Definition generateChecklistItems (projectData : ProjectData)
  : list ChecklistItem :=
  let roofType := roofType projectData in
  let inverterPower := inverterPower projectData in
  let solarPanelsCount := solarPanelsCount projectData in
  let power := parseFloat inverterPower in

  let panelPower := 550 in
  let totalPanelPower := (solarPanelsCount * panelPower) / 1000 in

  let minimumInverterPower := 3.0 in
  let adjustedPower := Math_max power minimumInverterPower in

  let '(stringConfig, numberOfStrings, panelsPerString) :=
    stringConfiguration solarPanelsCount in

  let stringCurrent := panelPower / 40 in

  let items := [] in

  let items := push items
    [ {| title := "Sistema de Aterramento Equipotencial";
         description := "Hastes cobreadas 2,4m (" ++ $(Math_ceil (numberOfStrings * 0.5)) ++ " un), cabo nu 16mm² (" ++ $(Math_ceil (solarPanelsCount * 2)) ++ "m), conectores de aterramento";
         category := "seguranca" |} ] in

  let ccCableLength := Math_ceil (solarPanelsCount * 4.5) in
  let caCableLength := Math_ceil (adjustedPower * 2.5 + 10) in
  let mc4Connectors := Math_max 3 (Math_ceil (numberOfStrings + 1)) in

  let caCableSection := "6mm²" in

  let breakerCurrent := breakerRating adjustedPower in

  let items := push items
    [ {| title := "Cabo Solar CC 6mm² (" ++ $ccCableLength ++ "m)";
         description := $(Math_ceil (ccCableLength / 2)) ++ "m vermelho + " ++ $(Math_ceil (ccCableLength / 2)) ++ "m preto, cabo solar 6mm² dupla isolação para configuração " ++ stringConfig;
         category := "materiais_eletricos" |};
      {| title := "Conectores MC4 (" ++ $mc4Connectors ++ " pares)";
         description := "Conectores MC4 originais: 1 par no telhado (interligação strings) + 2 pares no inversor (entrada CC)";
         category := "materiais_eletricos" |};
      {| title := "String Box CC " ++ $numberOfStrings ++ "x1";
         description := "Caixa de proteção CC para configuração " ++ stringConfig ++ ", fusíveis " ++ $(Math_ceil (stringCurrent * 1.25)) ++ "A, DPS CC Tipo II";
         category := "materiais_eletricos" |};
      {| title := "Cabo CA " ++ caCableSection ++ " (" ++ $caCableLength ++ "m)";
         description := "Cabo multipolar " ++ caCableSection ++ " para " ++ $adjustedPower ++ "kW (mínimo 3kW), isolação 0,6/1kV, conexão inversor-quadro CA";
         category := "materiais_eletricos" |};
      {| title := "Disjuntor CA " ++ $breakerCurrent ++ "A";
         description := "Disjuntor tripolar " ++ $breakerCurrent ++ "A (padrão " ++ $breakerCurrent ++ "A), curva C, 6kA, para proteção do circuito CA";
         category := "materiais_eletricos" |};
      {| title := "DPS CA Classe II";
         description := "Dispositivo de proteção contra surtos CA, " ++ (if adjustedPower <=? 5 then "20kA" else if adjustedPower <=? 15 then "40kA" else "60kA") ++ ", adequado para " ++ $adjustedPower ++ "kW";
         category := "materiais_eletricos" |} ] in

  let structureItems :=
    getStructureItems roofType solarPanelsCount (Some numberOfStrings) in
  let items := push items structureItems in

  items.

(** Lines 407-411: the string configuration the analysis endpoint sends. *)
Definition analyze_stringConfig (project : ProjectData) : string :=
  let stringConfig := "2x2" in
  if 8 <? solarPanelsCount project then "3x3" else stringConfig.

(** Lines 440-444: the string configuration the report endpoint sends. *)
Definition report_stringConfig (project : ProjectData) : string :=
  let stringConfig := "2x2" in
  if 8 <? solarPanelsCount project then "3x3" else stringConfig.

End Routes.

Import JS Routes.

Local Open Scope string_scope.
Local Open Scope float_scope.

(* ================================================================== *)
(** * Vocabulary of the properties *)
(* ================================================================== *)

Module Spec.

(** The three categories. *)
Definition is_safety (i : ChecklistItem) : Prop := category i = "seguranca".
Definition is_electrical (i : ChecklistItem) : Prop :=
  category i = "materiais_eletricos".
Definition is_structure (i : ChecklistItem) : Prop := category i = "estrutura".

(** The number of strings the generator hands to [getStructureItems]. *)
Definition stringsOf (p : ProjectData) : number :=
  snd (fst (stringConfiguration (solarPanelsCount p))).

(** The four roof types with a case in [getStructureItems], and how many
    items each case lists. *)
Definition known_roof (r : string) : bool :=
  String.eqb r "ceramico" || String.eqb r "metalico"
  || String.eqb r "fibrocimento" || String.eqb r "solo".

Definition structure_count (r : string) : nat :=
  if String.eqb r "fibrocimento" then 5
  else if known_roof r then 4 else 0.

(** The AC breaker item for a rating, and the string box item for a number
    of strings and a configuration, as the generator words them. *)
Definition breakerItem (amps : string) : ChecklistItem :=
  {| title := "Disjuntor CA " ++ amps ++ "A";
     description := "Disjuntor tripolar " ++ amps ++ "A (padrão " ++ amps
                    ++ "A), curva C, 6kA, para proteção do circuito CA";
     category := "materiais_eletricos" |}.

Definition stringBoxItem (strings config : string) : ChecklistItem :=
  {| title := "String Box CC " ++ strings ++ "x1";
     description := "Caixa de proteção CC para configuração " ++ config
                    ++ ", fusíveis 18A, DPS CC Tipo II";
     category := "materiais_eletricos" |}.

(** [ceil (a / b)] over the rationals, for a positive [b]. *)
Definition ceil_ratio (a b : Z) : Z := (- ((- a) / b))%Z.

(** The quantities of the metal-roof items, in the specification's words:
    1.2 fixation points per panel, 0.7 trapezoidal clamps and 2 self-tapping
    screws per fixation point, in exact arithmetic. *)
Definition spec_fixationPoints (panelCount : Z) : Z :=
  ceil_ratio (panelCount * 12) 10.

Definition spec_trapezoidalClamps (panelCount : Z) : Z :=
  ceil_ratio (spec_fixationPoints panelCount * 7) 10.

Definition spec_selfTappingScrews (panelCount : Z) : Z :=
  (spec_fixationPoints panelCount * 2)%Z.

(** A check on every integer of [lo, lo + len). *)
Fixpoint all_from (check : Z -> bool) (lo : Z) (len : nat) : bool :=
  match len with
  | O => true
  | S len' => check lo && all_from check (lo + 1)%Z len'
  end.

(** Equality test on the result of [stringConfiguration]. *)
Definition config_eqb (x y : string * number * number) : bool :=
  let '(c1, n1, p1) := x in
  let '(c2, n2, p2) := y in
  String.eqb c1 c2 && PrimFloat.Leibniz.eqb n1 n2
  && PrimFloat.Leibniz.eqb p1 p2.

(** The code's metal-roof quantities against the exact ones, for one panel
    count. *)
Definition metal_check (n : Z) : bool :=
  let fixationPoints := Math_ceil (of_Z n * 1.2) in
  PrimFloat.Leibniz.eqb fixationPoints (of_Z (spec_fixationPoints n))
  && String.eqb (Number_toString (Math_ceil (fixationPoints * 0.7)))
                (digits (spec_trapezoidalClamps n))
  && String.eqb (Number_toString (fixationPoints * 2))
                (digits (spec_selfTappingScrews n)).

(** The project with the given roof type, inverter power and panel count,
    and nothing else filled in. *)
Definition sample (r ip : string) (n : Z) : ProjectData :=
  {| name := "Projeto Solar"; address := None; phone := None;
     roofType := r; inverterPower := ip; inverterBrand := None;
     solarPanelsCount := of_Z n; installationDate := None;
     installer := None; platformLogin := None; platformPassword := None;
     platformUrl := None; platformNotes := None; status := None |}.

(** The same project as a customer's full record. *)
Definition sample_full (r ip : string) (n : Z) : ProjectData :=
  {| name := "Residencia Silva"; address := Some "Rua das Flores, 100";
     phone := Some "+55 11 99999-0000";
     roofType := r; inverterPower := ip; inverterBrand := Some "Solis";
     solarPanelsCount := of_Z n; installationDate := Some "2025-03-01";
     installer := Some "Joao"; platformLogin := Some "silva";
     platformPassword := Some "s3nh4"; platformUrl := Some "app.solis.com";
     platformNotes := Some "2FA"; status := Some "planejamento" |}.

End Spec.

Import Spec.

(* ================================================================== *)
(** * More ECMAScript built-ins, used by the client and the schema *)
(* ================================================================== *)

Module JSMore.

(** ToBoolean of a number: NaN and the two zeros are falsy. *)
Definition truthy (x : number) : bool :=
  negb (PrimFloat.is_nan x || PrimFloat.is_zero x).

(** [a || b] on numbers. *)
Definition or_else (a b : number) : number := if truthy a then a else b.

(** The global [isNaN] on a number. *)
Definition isNaN (x : number) : bool := PrimFloat.is_nan x.

(** ** Math.round

    The nearest integer, ties towards [+Infinity]; [-0] for an argument in
    [[-0.5, 0)].  NaN, the zeros, the infinities and the integers are
    returned unchanged. *)
Definition Math_round (x : number) : number :=
  match Prim2SF x with
  | S754_finite s m e =>
      if (0 <=? e)%Z then x
      else
        let d := (2 ^ (- e))%Z in
        let q := (Z.pos m / d)%Z in
        let r := (Z.pos m mod d)%Z in
        if s then
          let n := if (d <? 2 * r)%Z then (q + 1)%Z else q in
          if (n =? 0)%Z then PrimFloat.neg_zero else of_Z (- n)
        else of_Z (if (d <=? 2 * r)%Z then q + 1 else q)%Z
  | _ => x
  end.

(** ** Number.prototype.toFixed

    ECMA-262: a RangeError ([None]) unless [0 <= f <= 100]; Number::toString
    for a non-finite value or one of at least [10^21]; otherwise the integer
    [n] with [n / 10^f] closest to the value (the larger on a tie), printed
    with [f] digits after the point. *)
Definition Number_toFixed (x : number) (f : Z) : option string :=
  if ((f <? 0) || (100 <? f))%Z then None
  else
    match Prim2SF x with
    | S754_finite sg m e =>
        if (10 ^ 21 * 2 ^ Z.max (- e) 0 <=? Z.pos m * 2 ^ Z.max e 0)%Z then
          Some ((if sg then "-" else "")
                  ++ Number_toString (PrimFloat.abs x))%string
        else
          let num := (Z.pos m * 2 ^ Z.max e 0 * 10 ^ f)%Z in
          let d := (2 ^ Z.max (- e) 0)%Z in
          let n := ((2 * num + d) / (2 * d))%Z in
          let ds := digits n in
          let k := Z.of_nat (String.length ds) in
          let ds :=
            if (k <=? f)%Z then (zeros (Z.to_nat (f + 1 - k)) ++ ds)%string
            else ds in
          let k := Z.max k (f + 1) in
          let body :=
            if (f =? 0)%Z then ds
            else (substring 0 (Z.to_nat (k - f)) ds ++ "."
                    ++ substring (Z.to_nat (k - f)) (Z.to_nat f) ds)%string in
          Some ((if sg then "-" else "") ++ body)%string
    | S754_zero _ =>
        Some (if (f =? 0)%Z then "0" else "0." ++ zeros (Z.to_nat f))%string
    | _ => Some (Number_toString x)
    end.

(** ** parseInt, without a radix

    ECMA-262: leading white space is dropped, then a sign, then a [0x] or
    [0X] prefix (which selects radix 16); the longest run of digits of the
    radix is read; NaN when it is empty; the integer is rounded to the
    nearest double. *)
Definition hex_digit_of (c : ascii) : option Z :=
  let n := Z.of_N (N_of_ascii c) in
  if ((48 <=? n) && (n <=? 57))%Z then Some (n - 48)%Z
  else if ((97 <=? n) && (n <=? 102))%Z then Some (n - 87)%Z
  else if ((65 <=? n) && (n <=? 70))%Z then Some (n - 55)%Z
  else None.

Fixpoint read_radix_digits (radix : Z) (s : string) (acc : Z) (count : Z)
  : Z * Z :=
  match s with
  | String c r =>
      match (if (radix =? 16)%Z then hex_digit_of c else digit_of c) with
      | Some d => read_radix_digits radix r (radix * acc + d)%Z (count + 1)%Z
      | None => (acc, count)
      end
  | EmptyString => (acc, count)
  end.

Definition parseInt (input : string) : number :=
  let s := trimStart input in
  let '(neg, s) :=
    match s with
    | String c r =>
        if byte_is c 45 then (true, r)
        else if byte_is c 43 then (false, r)
        else (false, s)
    | EmptyString => (false, s)
    end in
  let '(radix, s) :=
    match s with
    | String c1 (String c2 r) =>
        if byte_is c1 48 && (byte_is c2 120 || byte_is c2 88) then (16%Z, r)
        else (10%Z, s)
    | _ => (10%Z, s)
    end in
  let '(v, count) := read_radix_digits radix s 0 0 in
  if (count =? 0)%Z then PrimFloat.nan
  else if (v =? 0)%Z then signed neg PrimFloat.zero
  else signed neg (round_ratio v 1).

End JSMore.

Import JSMore.

(* ================================================================== *)
(** * shared/schema.ts: the checks of [insertProjectSchema] *)
(* ================================================================== *)

Module Schema.

(** [s.length], the UTF-16 code units of a string held as UTF-8 bytes: one
    for each character, two for a character outside the basic plane (a
    four-byte sequence); continuation bytes count for nothing. *)
Fixpoint JS_length (s : string) : nat :=
  match s with
  | EmptyString => 0
  | String c rest =>
      let b := N_of_ascii c in
      ((if (b <? 128)%N then 1
        else if (b <? 192)%N then 0
        else if (b <? 240)%N then 1 else 2) + JS_length rest)%nat
  end.

(** [z.string().min(1)] on [name]. *)
Definition name_check (name : string) : bool :=
  (1 <=? JS_length name)%nat.

(** [z.enum(["ceramico", "metalico", "fibrocimento", "solo"])]. *)
Definition roofType_check (roofType : string) : bool :=
  existsb (String.eqb roofType)
          ["ceramico"; "metalico"; "fibrocimento"; "solo"].

(** The refinement on [inverterPower]. *)
Definition inverterPower_check (val : string) : bool :=
  let num := parseFloat val in
  negb (isNaN num) && (3.0 <=? num) && (num <=? 100).

(** [z.number().min(1).max(200)]. *)
Definition solarPanelsCount_check (n : number) : bool :=
  (1 <=? n) && (n <=? 200).

(** [status] is the one column [extend] does not override:
    [createInsertSchema] keeps it as derived from
    [varchar("status", { length: 20 }).notNull().default(...)], an optional
    string of at most 20 code units. *)
Definition status_check (status : option string) : bool :=
  match status with
  | None => true
  | Some s => (JS_length s <=? 20)%nat
  end.

(** All the checks of [insertProjectSchema.parse] on a request body whose
    fields have the types of [ProjectData]; the optional strings of
    [extend] carry no further check. *)
Definition checks (p : ProjectData) : bool :=
  name_check (name p) && roofType_check (roofType p)
  && inverterPower_check (inverterPower p)
  && solarPanelsCount_check (solarPanelsCount p)
  && status_check (status p).

End Schema.

(* ================================================================== *)
(** * server/routes.ts: the create and status routes *)
(* ================================================================== *)

Module Handlers.

(** What the create route hands to [storage.createChecklistItems]. *)
Record InsertChecklistItem := {
  title : string;
  description : string;
  category : string;
  projectId : number;
  isCompleted : number
}.

(** Lines 229-234: every generated item, with the project's id and
    [isCompleted: 0]. *)
Definition checklistItems (projectId : number) (validatedData : ProjectData)
  : list InsertChecklistItem :=
  let checklistData := generateChecklistItems validatedData in
  map (fun item =>
         {| title := Routes.title item;
            description := Routes.description item;
            category := Routes.category item;
            projectId := projectId;
            isCompleted := 0 |})
      checklistData.

(** Lines 334-337: the statuses the status route lets through. *)
Definition status_accepted (status : string) : bool :=
  existsb (String.eqb status) ["planejamento"; "em_andamento"; "concluido"].

End Handlers.

(* ================================================================== *)
(** * The new-project form: the panel-count field *)
(* ================================================================== *)

Module NewProjectForm.

(** The [onChange] of the panel-count input: the count it stores and the
    inverter power it fills in ([None] if [toFixed] throws). *)
Definition onPanelsChange (value : string) : number * option string :=
  let count := or_else (parseInt value) 1 in
  let calculatedPower := count * 0.55 * 0.8 in
  let recommendedPower := Number_toFixed (Math_max calculatedPower 3.0) 1 in
  (count, recommendedPower).

End NewProjectForm.

(* ================================================================== *)
(** * The project page: progress and automatic status *)
(* ================================================================== *)

Module ProjectDetails.

(** A row of [checklist_items]. *)
Record ChecklistItem := {
  id : number;
  projectId : number;
  title : string;
  description : option string;
  category : string;
  isCompleted : number;
  createdAt : option string
}.

(** The fields of [ProjectWithItems] the page computes with. *)
Record ProjectWithItems := {
  project_id : number;
  status : string;
  checklistItems : list ChecklistItem
}.

(** [array.length]. *)
Definition length_of {A} (l : list A) : number :=
  of_Z (Z.of_nat (List.length l)).

Definition completedItems (project : ProjectWithItems) : number :=
  length_of (filter (fun item => truthy (isCompleted item))
                    (checklistItems project)).

Definition totalItems (project : ProjectWithItems) : number :=
  length_of (checklistItems project).

Definition progress (project : ProjectWithItems) : number :=
  if 0 <? totalItems project then
    Math_round (completedItems project / totalItems project * 100)
  else 0.

(** The two requests of [handleCheckboxChange]: the item update sent at
    once, and the status update the timer may send. *)
Record Requests := {
  item_update : number * number;
  status_update : option (number * string)
}.

Definition handleCheckboxChange (project : ProjectWithItems)
    (itemId : number) (isCompleted' : bool) : Requests :=
  let updatedCompletedItems :=
    length_of
      (filter (fun item =>
                 if id item =? itemId then isCompleted'
                 else truthy (isCompleted item))
              (checklistItems project)) in
  let totalItems := length_of (checklistItems project) in
  let newProgress :=
    if 0 <? totalItems then
      Math_round (updatedCompletedItems / totalItems * 100)
    else 0 in
  let newStatus := status project in
  let newStatus :=
    if (newProgress =? 100) && negb (String.eqb (status project) "concluido")
    then "concluido"
    else if (0 <? newProgress) && (newProgress <? 100)
            && String.eqb (status project) "planejamento"
    then "em_andamento"
    else newStatus in
  {| item_update := (itemId, if isCompleted' then 1 else 0);
     status_update :=
       if negb (String.eqb newStatus (status project))
       then Some (project_id project, newStatus) else None |}.

End ProjectDetails.

(* ================================================================== *)
(** * The home page: the project counters *)
(* ================================================================== *)

Module Home.

Section Counters.

Variable Project : Type.
Variable status : Project -> string.

Definition completedProjects (projects : list Project) : nat :=
  List.length (filter (fun p => String.eqb (status p) "concluido") projects).

Definition inProgressProjects (projects : list Project) : nat :=
  List.length
    (filter (fun p => String.eqb (status p) "em_andamento") projects).

Definition planningProjects (projects : list Project) : nat :=
  List.length
    (filter (fun p => String.eqb (status p) "planejamento") projects).

End Counters.

End Home.

(* ================================================================== *)
(** * The checklist in exact arithmetic *)
(* ================================================================== *)

(** The formulas of the generator over the integers: [n] panels, an
    inverter power of [k / 10] kW.  Nothing here rounds in binary. *)
Module Exact.

Import Routes.

(** [k / 10] in decimal, without a trailing zero. *)
Definition decimal1 (k : Z) : string :=
  if (k mod 10 =? 0)%Z then digits (k / 10)
  else digits (k / 10) ++ "." ++ digits (k mod 10).

(** The power after the 3 kW floor, in tenths. *)
Definition adjusted (k : Z) : Z := Z.max k 30.

Definition numberOfStrings (n : Z) : Z := if (8 <? n)%Z then 3%Z else 2%Z.

Definition stringConfig (n : Z) : string :=
  if (8 <? n)%Z then "3x3" else "2x2".

Definition groundingRods (n : Z) : Z := ceil_ratio (numberOfStrings n * 5) 10.
Definition groundCable (n : Z) : Z := (n * 2)%Z.
Definition ccCableLength (n : Z) : Z := ceil_ratio (n * 45) 10.
Definition mc4Connectors (n : Z) : Z := Z.max 3 (numberOfStrings n + 1).
Definition fuse : Z := ceil_ratio (550 * 125) (40 * 100).
Definition caCableLength (k : Z) : Z :=
  ceil_ratio (adjusted k * 25 + 1000) 100.

Definition breakerCurrent (k : Z) : Z :=
  if (80 <? adjusted k)%Z then 50%Z
  else if (50 <? adjusted k)%Z then 40%Z else 32%Z.

Definition surgeRating (k : Z) : string :=
  if (adjusted k <=? 50)%Z then "20kA"
  else if (adjusted k <=? 150)%Z then "40kA" else "60kA".

Definition panelsPerRow (n : Z) : Z := ceil_ratio n (numberOfStrings n).
Definition totalRailLength (n : Z) : Z :=
  (ceil_ratio (panelsPerRow n * 21) 10 * numberOfStrings n)%Z.
Definition fixationPoints (n : Z) : Z := ceil_ratio (n * 12) 10.
Definition foundationPoints (n : Z) : Z := (numberOfStrings n * 2)%Z.

Local Notation "'#' z" := (digits z) (at level 35, only parsing).

(** The four items that depend on the panel count, for quantities already
    printed. *)
Definition count_template
    (rods groundCable ccCable ccHalf mc4 strings config fuse : string)
  : list ChecklistItem :=
  [ {| title := "Sistema de Aterramento Equipotencial";
       description := "Hastes cobreadas 2,4m (" ++ rods ++ " un), cabo nu 16mm² (" ++ groundCable ++ "m), conectores de aterramento";
       category := "seguranca" |};
    {| title := "Cabo Solar CC 6mm² (" ++ ccCable ++ "m)";
       description := ccHalf ++ "m vermelho + " ++ ccHalf ++ "m preto, cabo solar 6mm² dupla isolação para configuração " ++ config;
       category := "materiais_eletricos" |};
    {| title := "Conectores MC4 (" ++ mc4 ++ " pares)";
       description := "Conectores MC4 originais: 1 par no telhado (interligação strings) + 2 pares no inversor (entrada CC)";
       category := "materiais_eletricos" |};
    {| title := "String Box CC " ++ strings ++ "x1";
       description := "Caixa de proteção CC para configuração " ++ config ++ ", fusíveis " ++ fuse ++ "A, DPS CC Tipo II";
       category := "materiais_eletricos" |} ].

(** The items that depend on the panel count alone. *)
Definition count_items (n : Z) : list ChecklistItem :=
  count_template (#(groundingRods n)) (#(groundCable n)) (#(ccCableLength n))
                 (#(ceil_ratio (ccCableLength n) 2)) (#(mc4Connectors n))
                 (#(numberOfStrings n)) (stringConfig n) (#fuse).

(** The same items as the code computes them from the panel count. *)
Definition count_view (solarPanelsCount : number) : list ChecklistItem :=
  let many := 8 <? solarPanelsCount in
  count_template
    (if many then "2" else "1")
    (Number_toString (Math_ceil (solarPanelsCount * 2)))
    (Number_toString (Math_ceil (solarPanelsCount * 4.5)))
    (Number_toString (Math_ceil (Math_ceil (solarPanelsCount * 4.5) / 2)))
    (if many then "4" else "3")
    (if many then "3" else "2")
    (if many then "3x3" else "2x2")
    "18".

(** The three items that depend on the inverter power, for a cable
    length, a power, a breaker rating and a surge rating already printed. *)
Definition power_template (caCableLength power amps surge : string)
  : list ChecklistItem :=
  [ {| title := "Cabo CA 6mm² (" ++ caCableLength ++ "m)";
       description := "Cabo multipolar 6mm² para " ++ power ++ "kW (mínimo 3kW), isolação 0,6/1kV, conexão inversor-quadro CA";
       category := "materiais_eletricos" |};
    {| title := "Disjuntor CA " ++ amps ++ "A";
       description := "Disjuntor tripolar " ++ amps ++ "A (padrão " ++ amps ++ "A), curva C, 6kA, para proteção do circuito CA";
       category := "materiais_eletricos" |};
    {| title := "DPS CA Classe II";
       description := "Dispositivo de proteção contra surtos CA, " ++ surge ++ ", adequado para " ++ power ++ "kW";
       category := "materiais_eletricos" |} ].

(** The items that depend on the inverter power alone. *)
Definition power_items (k : Z) : list ChecklistItem :=
  power_template (#(caCableLength k)) (decimal1 (adjusted k))
                 (#(breakerCurrent k)) (surgeRating k).

(** The same items as the code computes them from the adjusted power. *)
Definition power_view (adjustedPower : number) : list ChecklistItem :=
  power_template
    (Number_toString (Math_ceil (adjustedPower * 2.5 + 10)))
    (Number_toString adjustedPower)
    (Number_toString (breakerRating adjustedPower))
    (if adjustedPower <=? 5 then "20kA"
     else if adjustedPower <=? 15 then "40kA" else "60kA").

(** The structure items of each roof type. *)
Definition structure_items (roofType : string) (n : Z) : list ChecklistItem :=
  if String.eqb roofType "ceramico" then
    [ {| title := "Ganchos para Telha Cerâmica (" ++ #(fixationPoints n) ++ " un)";
         description := "Ganchos ajustáveis em aço inox 316 para telhas cerâmicas, com vedação EPDM dupla, suporte para " ++ #(numberOfStrings n) ++ " fileiras";
         category := "estrutura" |};
      {| title := "Trilhos de Alumínio Anodizado (" ++ #(totalRailLength n) ++ "m)";
         description := "Trilhos 40x40mm para " ++ #(numberOfStrings n) ++ " strings de " ++ #(panelsPerRow n) ++ " painéis, incluindo emendas, terminais e reguladores";
         category := "estrutura" |};
      {| title := "Grampos de Fixação (" ++ #(n * 2)%Z ++ " un)";
         description := #(ceil_ratio (n * 2) 10) ++ " grampos terminais + " ++ #(ceil_ratio (n * 18) 10) ++ " intermediários, alumínio anodizado";
         category := "estrutura" |};
      {| title := "Kit de Fixação Cerâmica (" ++ #(fixationPoints n) ++ " kits)";
         description := "Parafusos M8x80, buchas S8, arruelas e vedações EPDM para fixação em estrutura cerâmica";
         category := "estrutura" |} ]
  else if String.eqb roofType "metalico" then
    [ {| title := "Grampos Trapezoidais (" ++ #(ceil_ratio (fixationPoints n * 7) 10) ++ " un)";
         description := "Grampos para telha trapezoidal/zipada, adequados para " ++ #(numberOfStrings n) ++ " fileiras, com vedação dupla EPDM";
         category := "estrutura" |};
      {| title := "Trilhos de Alumínio Anodizado (" ++ #(totalRailLength n) ++ "m)";
         description := "Sistema de trilhos 40x40mm para estrutura metálica, " ++ #(numberOfStrings n) ++ " strings, com conectores e terminais";
         category := "estrutura" |};
      {| title := "Grampos de Fixação (" ++ #(n * 2)%Z ++ " un)";
         description := "Grampos terminais e intermediários para fixação de " ++ #n ++ " painéis em " ++ #(numberOfStrings n) ++ " strings";
         category := "estrutura" |};
      {| title := "Parafusos Autoperfurantes (" ++ #(fixationPoints n * 2)%Z ++ " un)";
         description := "Parafusos 12x80mm com vedação EPDM, brocas adequadas para perfil metálico";
         category := "estrutura" |} ]
  else if String.eqb roofType "fibrocimento" then
    [ {| title := "Ganchos para Telha Fibrocimento (" ++ #(fixationPoints n) ++ " un)";
         description := "Ganchos específicos para telhas de fibrocimento/Brasilit, em aço galvanizado, com vedação EPDM reforçada para " ++ #(numberOfStrings n) ++ " fileiras";
         category := "estrutura" |};
      {| title := "Trilhos de Alumínio Anodizado (" ++ #(totalRailLength n) ++ "m)";
         description := "Sistema de trilhos 40x40mm reforçado para fibrocimento, " ++ #(numberOfStrings n) ++ " strings de " ++ #(panelsPerRow n) ++ " painéis, com conectores especiais";
         category := "estrutura" |};
      {| title := "Grampos de Fixação (" ++ #(n * 2)%Z ++ " un)";
         description := "Grampos terminais e intermediários em alumínio anodizado, adequados para carga de vento em fibrocimento";
         category := "estrutura" |};
      {| title := "Kit de Fixação Fibrocimento (" ++ #(fixationPoints n) ++ " kits)";
         description := "Parafusos autoperfurantes 12x100mm, buchas especiais, arruelas metálicas e vedações EPDM duplas para telhas de fibrocimento";
         category := "estrutura" |};
      {| title := "Reforço Estrutural";
         description := #(ceil_ratio (fixationPoints n * 3) 10) ++ " perfis de reforço interno em aço galvanizado para distribuição de cargas em telhas fibrocimento";
         category := "estrutura" |} ]
  else if String.eqb roofType "solo" then
    [ {| title := "Estrutura Solo Fixa (" ++ #(ceil_ratio n 6) ++ " kits)";
         description := "Sistema de estrutura fixa para solo, cada kit comporta 6 painéis, inclinação 20°, para " ++ #(numberOfStrings n) ++ " strings";
         category := "estrutura" |};
      {| title := "Fundações de Concreto (" ++ #(foundationPoints n) ++ " un)";
         description := "Blocos de fundação 40x40x60cm ou estacas hélice contínua, adequadas para " ++ #n ++ " painéis";
         category := "estrutura" |};
      {| title := "Kit de Ancoragem (" ++ #(foundationPoints n) ++ " kits)";
         description := "Chumbadores M16x200mm, porcas, arruelas e graute para fixação da estrutura nas fundações";
         category := "estrutura" |};
      {| title := "Sistema de Aterramento Solo";
         description := "Malha de aterramento com " ++ #(foundationPoints n) ++ " hastes cobreadas interligadas, cabo nu 25mm²";
         category := "estrutura" |} ]
  else [].

(** The whole checklist, in the generator's order. *)
Definition checklist (roofType : string) (k n : Z) : list ChecklistItem :=
  (count_items n ++ power_items k ++ structure_items roofType n)%list.

(** Equality tests on items and lists of items. *)
Definition item_eqb (x y : ChecklistItem) : bool :=
  String.eqb (title x) (title y)
  && String.eqb (description x) (description y)
  && String.eqb (category x) (category y).

Fixpoint items_eqb (l1 l2 : list ChecklistItem) : bool :=
  match l1, l2 with
  | [], [] => true
  | x :: l1', y :: l2' => item_eqb x y && items_eqb l1' l2'
  | _, _ => false
  end.

(** The code against the exact checklist, part by part. *)
Definition count_part_check (n : Z) : bool :=
  items_eqb (count_view (of_Z n)) (count_items n).

Definition power_part_check (k : Z) : bool :=
  let a := Math_max (round_ratio k 10) 3 in
  PrimFloat.Leibniz.eqb (Math_ceil (a * 2.5 + 10)) (of_Z (caCableLength k))
  && (0 <=? caCableLength k)%Z && (caCableLength k <=? 1000)%Z
  && String.eqb (Number_toString a) (decimal1 (adjusted k))
  && PrimFloat.Leibniz.eqb (breakerRating a) (of_Z (breakerCurrent k))
  && String.eqb (if a <=? 5 then "20kA"
                 else if a <=? 15 then "40kA" else "60kA")
                (surgeRating k).

(** Printing a small integer. *)
Definition small_integer_check (z : Z) : bool :=
  String.eqb (Number_toString (of_Z z)) (#z).

Definition structure_part_check (r : string) (n : Z) : bool :=
  items_eqb (getStructureItems r (of_Z n) (Some (of_Z (numberOfStrings n))))
            (structure_items r n)
  && PrimFloat.Leibniz.eqb (snd (fst (stringConfiguration (of_Z n))))
                           (of_Z (numberOfStrings n)).

End Exact.

(* ================================================================== *)
(** * The client's numbers in exact arithmetic *)
(* ================================================================== *)

Module ExactClient.

(** [t / 10] with one decimal. *)
Definition tenths (t : Z) : string :=
  digits (t / 10) ++ "." ++ digits (t mod 10).

(** The power the form recommends for [n] panels, in tenths of a kW:
    0.44 kW per panel rounded half up to one decimal, at least 3.0. *)
Definition recommended_tenths (n : Z) : Z :=
  Z.max 30 ((44 * n + 5) / 10).

(** The form against the exact recommendation, for the count typed as the
    decimal digits of [n]. *)
Definition autofill_check (n : Z) : bool :=
  match NewProjectForm.onPanelsChange (digits n) with
  | (count, Some power) =>
      PrimFloat.Leibniz.eqb count (of_Z n)
      && String.eqb power (tenths (recommended_tenths n))
      && Bool.eqb (Schema.inverterPower_check power) (n <=? 227)%Z
  | (_, None) => false
  end.

(** An item the page counts as completed, now and after the checkbox of
    item [itemId] is set to [flag]. *)
Definition completed (item : ProjectDetails.ChecklistItem) : bool :=
  truthy (ProjectDetails.isCompleted item).

Definition completed_after (itemId : number) (flag : bool)
    (item : ProjectDetails.ChecklistItem) : bool :=
  if ProjectDetails.id item =? itemId then flag
  else truthy (ProjectDetails.isCompleted item).

(** The progress shown for [c] completed items out of [t], as the page
    computes it. *)
Definition progress_of (c t : Z) : number :=
  if 0 <? of_Z t then Math_round (of_Z c / of_Z t * 100) else 0.

(** The percentage [100 c / t] rounded half up. *)
Definition percent (c t : Z) : Z := ((200 * c + t) / (2 * t))%Z.

Definition progress_check (t : Z) : bool :=
  all_from (fun c => PrimFloat.Leibniz.eqb (progress_of c t)
                                           (of_Z (percent c t)))
           0 (S (Z.to_nat t)).

(** The three tests the page makes on a progress, against the counts. *)
Definition extremes_check (t : Z) : bool :=
  all_from (fun c =>
              let v := progress_of c t in
              Bool.eqb (v =? 100) (c =? t)%Z
              && Bool.eqb (0 <? v) (0 <? c)%Z
              && Bool.eqb (v <? 100) (c <? t)%Z)
           0 (S (Z.to_nat t)).

(** A project page with one row per given [isCompleted] value, the rows
    numbered from 1. *)
Definition row (i : Z) (flag : number) : ProjectDetails.ChecklistItem :=
  {| ProjectDetails.id := of_Z i;
     ProjectDetails.projectId := 1;
     ProjectDetails.title := "";
     ProjectDetails.description := None;
     ProjectDetails.category := "estrutura";
     ProjectDetails.isCompleted := flag;
     ProjectDetails.createdAt := None |}.

Fixpoint rows_from (i : Z) (flags : list number)
  : list ProjectDetails.ChecklistItem :=
  match flags with
  | [] => []
  | flag :: flags' => row i flag :: rows_from (i + 1)%Z flags'
  end.

Definition sample_page (status : string) (flags : list number)
  : ProjectDetails.ProjectWithItems :=
  {| ProjectDetails.project_id := 1;
     ProjectDetails.status := status;
     ProjectDetails.checklistItems := rows_from 1 flags |}.

End ExactClient.

(* ================================================================== *)
(** * server/gemini.ts and the analysis route: the project details sent *)
(* ================================================================== *)

Module Analysis.

(** A line feed. *)
Definition LF : string := String (ascii_of_nat 10) EmptyString.

(** [projectDetails] of [analyzeProject]: the text sent to the model as
    [contents] ([None] if [toFixed] throws). *)
Definition projectDetails (panelCount inverterPower : number)
    (roofType stringConfig : string) : option string :=
  match Number_toFixed (panelCount * 0.55) 2 with
  | Some total =>
      Some (LF ++ "Projeto Solar:" ++ LF
            ++ "- Painéis: " ++ Number_toString panelCount
            ++ " unidades (550W cada)" ++ LF
            ++ "- Inversor: " ++ Number_toString inverterPower ++ "kW" ++ LF
            ++ "- Tipo de instalação: " ++ roofType ++ LF
            ++ "- Configuração: " ++ stringConfig ++ LF
            ++ "- Potência total estimada: " ++ total ++ "kW" ++ LF)
  | None => None
  end.

(** Lines 407-418 of routes.ts: the details the analysis route sends for a
    stored project. *)
Definition route_details (project : ProjectData) : option string :=
  projectDetails (solarPanelsCount project)
                 (parseFloat (inverterPower project))
                 (roofType project)
                 (analyze_stringConfig project).

(** [h / 100] with two decimals. *)
Definition hundredths (h : Z) : string :=
  digits (h / 100) ++ "."
  ++ (if (h mod 100 <? 10)%Z then "0" else "") ++ digits (h mod 100).

(** The details in exact arithmetic, for [n] panels and [k / 10] kW. *)
Definition exact_details (roofType : string) (k n : Z) : string :=
  LF ++ "Projeto Solar:" ++ LF
  ++ "- Painéis: " ++ digits n ++ " unidades (550W cada)" ++ LF
  ++ "- Inversor: " ++ Exact.decimal1 k ++ "kW" ++ LF
  ++ "- Tipo de instalação: " ++ roofType ++ LF
  ++ "- Configuração: " ++ Exact.stringConfig n ++ LF
  ++ "- Potência total estimada: " ++ hundredths (55 * n) ++ "kW" ++ LF.

(** The code against the exact details, for one panel count and for one
    power. *)
Definition count_check (n : Z) : bool :=
  match Number_toFixed (of_Z n * 0.55) 2 with
  | Some total => String.eqb total (hundredths (55 * n))
  | None => false
  end
  && String.eqb (if 8 <? of_Z n then "3x3" else "2x2") (Exact.stringConfig n).

Definition power_check (k : Z) : bool := 3 <=? round_ratio k 10.

End Analysis.

(* ================================================================== *)
(** * Facts about binary64 comparisons *)
(* ================================================================== *)

Section FloatOrder.

Lemma SFcompare_refl_not_nan (x : spec_float) :
  x <> S754_nan -> SFcompare x x = Some Eq.
Proof.
  destruct x as [s | s | | s m e]; intros Hx; try congruence.
  - reflexivity.
  - destruct s; reflexivity.
  - simpl. rewrite Z.compare_refl. fold (Pos.compare m m).
    rewrite Pos.compare_refl. destruct s; reflexivity.
Qed.

Lemma SFcompare_antisym (x y : spec_float) :
  SFcompare y x = option_map CompOpp (SFcompare x y).
Proof.
  destruct x as [s1 | s1 | | s1 m1 e1], y as [s2 | s2 | | s2 m2 e2];
    try reflexivity;
    try (destruct s1; reflexivity);
    try (destruct s2; reflexivity);
    try (destruct s1, s2; reflexivity).
  simpl. fold (Pos.compare m1 m2). fold (Pos.compare m2 m1).
  rewrite (Z.compare_antisym e1 e2), (Pos.compare_antisym m1 m2).
  destruct s1, s2; try reflexivity;
    destruct (e1 ?= e2)%Z; simpl; try reflexivity;
    destruct (m1 ?= m2)%positive; reflexivity.
Qed.

Variables a c : float.

(** A number below another is not NaN. *)
Lemma ltb_true_not_nan : (a <? c) = true -> PrimFloat.is_nan a = false.
Proof.
  intros H. unfold PrimFloat.is_nan.
  rewrite FloatAxioms.ltb_spec in H. rewrite FloatAxioms.eqb_spec.
  unfold SFeqb. rewrite SFcompare_refl_not_nan; [reflexivity|].
  intros E. rewrite E in H. discriminate H.
Qed.

(** [a <= c] excludes [c < a]. *)
Lemma leb_true_ltb_false : (a <=? c) = true -> (c <? a) = false.
Proof.
  rewrite FloatAxioms.leb_spec, FloatAxioms.ltb_spec. unfold SFleb, SFltb.
  rewrite (SFcompare_antisym (Prim2SF a) (Prim2SF c)).
  destruct (SFcompare (Prim2SF a) (Prim2SF c)) as [[ | | ] | ];
    simpl; congruence.
Qed.

(** Above 8 is above 5. *)
Lemma ltb_8_ltb_5 : (8 <? a) = true -> (5 <? a) = true.
Proof.
  rewrite !FloatAxioms.ltb_spec.
  change (Prim2SF 8) with (S754_finite false 4503599627370496 (-49)).
  change (Prim2SF 5) with (S754_finite false 5629499534213120 (-50)).
  unfold SFltb, SFcompare.
  destruct (Prim2SF a) as [s | s | | s m e]; try congruence.
  destruct s; try congruence.
  destruct (Z.compare_spec (-49) e) as [E | L | G];
    destruct (Z.compare_spec (-50) e) as [E' | L' | G'];
    intros H; try reflexivity; try discriminate H; lia.
Qed.

End FloatOrder.

(** [Math.max] against the 3 kW floor. *)
Lemma Math_max_floor (power : number) :
  (power <? 3) = true -> Math_max power 3 = 3.
Proof.
  intros H.
  unfold Math_max, Math_max_list. cbn [fold_left].
  unfold max_step at 2.
  rewrite (ltb_true_not_nan _ _ H).
  change (is_neg_zero neg_infinity) with false.
  rewrite Bool.andb_false_r.
  unfold max_step.
  change (PrimFloat.is_nan 3) with false.
  change (is_pos_zero 3) with false.
  cbn [andb].
  destruct (neg_infinity <? power).
  - rewrite H. reflexivity.
  - reflexivity.
Qed.

(** The three tiers of [breakerRating]. *)
Lemma breakerRating_tiers (a : number) :
  ((a <=? 5) = true -> breakerRating a = 32)
  /\ ((5 <? a) = true -> (a <=? 8) = true -> breakerRating a = 40)
  /\ ((8 <? a) = true -> breakerRating a = 50).
Proof.
  unfold breakerRating. split; [|split].
  - intros H. rewrite (leb_true_ltb_false _ _ H).
    destruct (8 <? a) eqn:E8; [|reflexivity].
    apply ltb_8_ltb_5 in E8. rewrite (leb_true_ltb_false _ _ H) in E8.
    discriminate E8.
  - intros H5 H8. rewrite H5, (leb_true_ltb_false _ _ H8). reflexivity.
  - intros H8. rewrite H8. reflexivity.
Qed.

(* ================================================================== *)
(** * Checks over a range of integers *)
(* ================================================================== *)

Lemma all_from_spec (check : Z -> bool) (len : nat) :
  forall lo, all_from check lo len = true ->
  forall n, (lo <= n < lo + Z.of_nat len)%Z -> check n = true.
Proof.
  induction len as [| len IH]; intros lo H n Hn.
  - simpl in Hn. lia.
  - cbn [all_from] in H. apply Bool.andb_true_iff in H as [H0 H1].
    destruct (Z.eq_dec n lo) as [-> | Hne]; [exact H0|].
    apply (IH (lo + 1)%Z H1). lia.
Qed.

Lemma config_eqb_eq (x y : string * number * number) :
  config_eqb x y = true -> x = y.
Proof.
  destruct x as [[c1 n1] p1], y as [[c2 n2] p2]. unfold config_eqb.
  intros H. apply Bool.andb_true_iff in H as [H Hp].
  apply Bool.andb_true_iff in H as [Hc Hn].
  apply String.eqb_eq in Hc. apply FloatAxioms.Leibniz.eqb_spec in Hn, Hp.
  congruence.
Qed.

Lemma stringConfiguration_low (n : Z) :
  (1 <= n <= 8)%Z ->
  stringConfiguration (of_Z n) = ("2x2", 2, of_Z (ceil_ratio n 2)).
Proof.
  intros Hn. apply config_eqb_eq.
  apply (all_from_spec
           (fun n => config_eqb (stringConfiguration (of_Z n))
                                ("2x2", 2, of_Z (ceil_ratio n 2)))
           8 1%Z); [vm_compute; reflexivity | lia].
Qed.

Lemma stringConfiguration_high (n : Z) :
  (9 <= n <= 200)%Z ->
  stringConfiguration (of_Z n) = ("3x3", 3, of_Z (ceil_ratio n 3)).
Proof.
  intros Hn. apply config_eqb_eq.
  apply (all_from_spec
           (fun n => config_eqb (stringConfiguration (of_Z n))
                                ("3x3", 3, of_Z (ceil_ratio n 3)))
           192 9%Z); [vm_compute; reflexivity | lia].
Qed.

Lemma metal_check_all (n : Z) : (1 <= n <= 200)%Z -> metal_check n = true.
Proof.
  intros Hn.
  apply (all_from_spec metal_check 200 1%Z); [vm_compute; reflexivity | lia].
Qed.

(* ================================================================== *)
(** * The structure sub-calculator *)
(* ================================================================== *)

Section Structure.

Variables (r : string) (c : number) (ns : option number).

(** Every item of [getStructureItems] is a structure item, and there are
    four of them (five for fibrocimento, none for an unknown roof type). *)
Lemma getStructureItems_shape :
  Forall is_structure (getStructureItems r c ns)
  /\ List.length (getStructureItems r c ns) = structure_count r.
Proof.
  unfold getStructureItems, structure_count, known_roof.
  destruct (String.eqb_spec r "ceramico") as [-> | _];
    [split; [repeat constructor | reflexivity] |].
  destruct (String.eqb_spec r "metalico") as [-> | _];
    [split; [repeat constructor | reflexivity] |].
  destruct (String.eqb_spec r "fibrocimento") as [-> | _];
    [split; [repeat constructor | reflexivity] |].
  destruct (String.eqb_spec r "solo") as [-> | _];
    [split; [repeat constructor | reflexivity] |].
  split; [constructor | reflexivity].
Qed.

Lemma getStructureItems_unknown :
  known_roof r = false -> getStructureItems r c ns = [].
Proof.
  unfold known_roof, getStructureItems. intros H.
  destruct (String.eqb r "ceramico"); [discriminate H|].
  destruct (String.eqb r "metalico"); [discriminate H|].
  destruct (String.eqb r "fibrocimento"); [discriminate H|].
  destruct (String.eqb r "solo"); [discriminate H|].
  reflexivity.
Qed.

Lemma known_roof_false :
  r <> "ceramico" -> r <> "metalico" -> r <> "fibrocimento" -> r <> "solo" ->
  known_roof r = false.
Proof.
  intros H1 H2 H3 H4. unfold known_roof.
  apply String.eqb_neq in H1, H2, H3, H4.
  rewrite H1, H2, H3, H4. reflexivity.
Qed.

(** The titles of the metal-roof items, as the code computes them. *)
Lemma getStructureItems_metalico_titles :
  map title (getStructureItems "metalico" c ns)
  = [ "Grampos Trapezoidais ("
        ++ Number_toString (Math_ceil (Math_ceil (c * 1.2) * 0.7)) ++ " un)";
      "Trilhos de Alumínio Anodizado ("
        ++ Number_toString
             (Math_ceil
                (Math_ceil
                   (c / match ns with Some v => v | None => 1 end) * 2.1)
              * match ns with Some v => v | None => 1 end) ++ "m)";
      "Grampos de Fixação (" ++ Number_toString (c * 2) ++ " un)";
      "Parafusos Autoperfurantes ("
        ++ Number_toString (Math_ceil (c * 1.2) * 2) ++ " un)" ].
Proof. reflexivity. Qed.

End Structure.

(* ================================================================== *)
(** * The shape of the generated list *)
(* ================================================================== *)

(** Splits [Forall P [x1; ...; xn]] into its [n] facts. *)
Ltac split_Forall H :=
  repeat (let T := fresh in
          apply Forall_cons_iff in H; destruct H as [? T]; rename T into H).

Section Shape.

Variable p : ProjectData.

(** The generator's output is one safety item, six electrical items, and
    whatever [getStructureItems] returns, in that order. *)
Lemma generate_split :
  exists a b1 b2 b3 b4 b5 b6,
    generateChecklistItems p
    = ([a] ++ [b1; b2; b3; b4; b5; b6]
         ++ getStructureItems (roofType p) (solarPanelsCount p)
              (Some (stringsOf p)))%list
    /\ is_safety a
    /\ Forall is_electrical [b1; b2; b3; b4; b5; b6].
Proof.
  unfold generateChecklistItems, stringsOf.
  destruct (stringConfiguration (solarPanelsCount p)) as [[sc n] pps].
  cbn [fst snd push app].
  do 7 eexists. split; [reflexivity|].
  split; [reflexivity|].
  repeat constructor.
Qed.

(** Where each category sits in the output. *)
Lemma generate_positions (i : nat) (x : ChecklistItem) :
  nth_error (generateChecklistItems p) i = Some x ->
  (i = 0%nat /\ is_safety x)
  \/ ((1 <= i <= 6)%nat /\ is_electrical x)
  \/ ((7 <= i)%nat /\ is_structure x).
Proof.
  destruct generate_split as (a & b1 & b2 & b3 & b4 & b5 & b6 & E & Ha & Hb).
  rewrite E. cbn [app]. split_Forall Hb.
  destruct i as [| [| [| [| [| [| [| i]]]]]]]; cbn [nth_error]; intros H.
  1: left; split; [reflexivity | congruence].
  1-6: right; left; split; [lia | congruence].
  right; right. split; [lia|].
  apply nth_error_In in H.
  destruct (getStructureItems_shape (roofType p) (solarPanelsCount p)
              (Some (stringsOf p))) as [F _].
  rewrite Forall_forall in F. apply F, H.
Qed.

(** The sixth item is the AC breaker, rated by [breakerRating]. *)
Lemma generate_breaker :
  nth_error (generateChecklistItems p) 5
  = Some (breakerItem
            (Number_toString
               (breakerRating (Math_max (parseFloat (inverterPower p)) 3)))).
Proof.
  unfold generateChecklistItems.
  destruct (stringConfiguration (solarPanelsCount p)) as [[sc n] pps].
  reflexivity.
Qed.

(** The fourth item is the string box, labelled by the string
    configuration. *)
Lemma generate_stringBox :
  nth_error (generateChecklistItems p) 3
  = Some (stringBoxItem
            (Number_toString (stringsOf p))
            (fst (fst (stringConfiguration (solarPanelsCount p))))).
Proof.
  unfold generateChecklistItems, stringsOf.
  destruct (stringConfiguration (solarPanelsCount p)) as [[sc n] pps].
  cbn [fst snd push app nth_error]. unfold stringBoxItem.
  replace (Number_toString (Math_ceil (550 / 40 * 1.25))) with "18"
    by (vm_compute; reflexivity).
  reflexivity.
Qed.

Variable q : ProjectData.

(** The generator reads its argument through the roof type, the panel count
    and the parsed inverter power only. *)
Lemma generate_reads_three_values :
  roofType p = roofType q ->
  parseFloat (inverterPower p) = parseFloat (inverterPower q) ->
  solarPanelsCount p = solarPanelsCount q ->
  generateChecklistItems p = generateChecklistItems q.
Proof.
  intros Hr Hi Hs. unfold generateChecklistItems. cbv zeta.
  rewrite Hr, Hi, Hs. reflexivity.
Qed.

(** The parsed power is read through [Math.max(power, 3.0)] only. *)
Lemma generate_reads_adjusted_power :
  roofType p = roofType q ->
  Math_max (parseFloat (inverterPower p)) 3
  = Math_max (parseFloat (inverterPower q)) 3 ->
  solarPanelsCount p = solarPanelsCount q ->
  generateChecklistItems p = generateChecklistItems q.
Proof.
  intros Hr Hi Hs. unfold generateChecklistItems. cbv zeta.
  rewrite Hr, Hi, Hs. reflexivity.
Qed.

End Shape.

(* ================================================================== *)
(** * The properties of the generator *)
(* ================================================================== *)

(** C1. Determinism: two calls whose arguments carry the same panel count,
    the same inverter power and the same roof type return the same sequence:
    the same number of items and, position by position, the same title,
    description and category. *)
Theorem generate_deterministic
    (panelCount inverterPowerKw : number) (roof : string)
    (call1 call2 : ProjectData) :
  solarPanelsCount call1 = panelCount ->
  parseFloat (inverterPower call1) = inverterPowerKw ->
  roofType call1 = roof ->
  solarPanelsCount call2 = panelCount ->
  parseFloat (inverterPower call2) = inverterPowerKw ->
  roofType call2 = roof ->
  generateChecklistItems call1 = generateChecklistItems call2
  /\ List.length (generateChecklistItems call1)
     = List.length (generateChecklistItems call2)
  /\ forall i,
       option_map title (nth_error (generateChecklistItems call1) i)
       = option_map title (nth_error (generateChecklistItems call2) i)
       /\ option_map description (nth_error (generateChecklistItems call1) i)
          = option_map description (nth_error (generateChecklistItems call2) i)
       /\ option_map category (nth_error (generateChecklistItems call1) i)
          = option_map category (nth_error (generateChecklistItems call2) i).
Proof.
  intros Hs1 Hp1 Hr1 Hs2 Hp2 Hr2.
  assert (E : generateChecklistItems call1 = generateChecklistItems call2).
  { apply generate_reads_three_values; congruence. }
  rewrite E. repeat split.
Qed.

Lemma generate_deterministic_witness :
  generateChecklistItems (sample "ceramico" "3.3" 6)
  = generateChecklistItems (sample "ceramico" "3.3" 6)
  /\ generateChecklistItems (sample "ceramico" "3.3" 6)
     = generateChecklistItems (sample_full "ceramico" "3.30" 6)
  /\ List.length (generateChecklistItems (sample "ceramico" "3.3" 6)) = 11%nat.
Proof.
  split; [|split].
  - apply (generate_deterministic 6 3.3 "ceramico"
             (sample "ceramico" "3.3" 6) (sample "ceramico" "3.3" 6));
      vm_compute; reflexivity.
  - apply (generate_deterministic 6 3.3 "ceramico"
             (sample "ceramico" "3.3" 6) (sample_full "ceramico" "3.30" 6));
      vm_compute; reflexivity.
  - vm_compute. reflexivity.
Defined.

(** C2. String-count threshold: a panel count from 1 to 8 gives two strings
    and the configuration 2x2, a panel count from 9 to 200 gives three
    strings and 3x3, and the panels per string are the panel count divided
    by the number of strings, rounded up. The string box of the generated
    checklist carries the two values. *)
Theorem string_count_threshold (n : Z) (p : ProjectData) :
  solarPanelsCount p = of_Z n ->
  ((1 <= n <= 8)%Z ->
     stringConfiguration (solarPanelsCount p)
     = ("2x2", 2, of_Z (ceil_ratio n 2))
     /\ nth_error (generateChecklistItems p) 3
        = Some (stringBoxItem "2" "2x2"))
  /\ ((9 <= n <= 200)%Z ->
        stringConfiguration (solarPanelsCount p)
        = ("3x3", 3, of_Z (ceil_ratio n 3))
        /\ nth_error (generateChecklistItems p) 3
           = Some (stringBoxItem "3" "3x3")).
Proof.
  intros Hp. split; intros Hn.
  - assert (E := stringConfiguration_low n Hn). rewrite <- Hp in E.
    split; [exact E|].
    rewrite generate_stringBox. unfold stringsOf. rewrite E. reflexivity.
  - assert (E := stringConfiguration_high n Hn). rewrite <- Hp in E.
    split; [exact E|].
    rewrite generate_stringBox. unfold stringsOf. rewrite E. reflexivity.
Qed.

Lemma string_count_threshold_witness :
  (stringConfiguration (of_Z 8) = ("2x2", 2, 4)
   /\ nth_error (generateChecklistItems (sample "ceramico" "3.3" 8)) 3
      = Some (stringBoxItem "2" "2x2"))
  /\ (stringConfiguration (of_Z 9) = ("3x3", 3, 3)
      /\ nth_error (generateChecklistItems (sample "ceramico" "3.3" 9)) 3
         = Some (stringBoxItem "3" "3x3")).
Proof.
  split.
  - apply (string_count_threshold 8 (sample "ceramico" "3.3" 8));
      [reflexivity | lia].
  - apply (string_count_threshold 9 (sample "ceramico" "3.3" 9));
      [reflexivity | lia].
Defined.

(** C3. Power floor: with the same panel count and roof type, an inverter
    power below 3.0 yields the whole output of an inverter power of 3.0. *)
Theorem power_floor (p q : ProjectData) :
  solarPanelsCount p = solarPanelsCount q ->
  roofType p = roofType q ->
  (parseFloat (inverterPower p) <? 3.0) = true ->
  parseFloat (inverterPower q) = 3.0 ->
  generateChecklistItems p = generateChecklistItems q.
Proof.
  intros Hs Hr Hlt H3.
  apply generate_reads_adjusted_power; try assumption.
  rewrite (Math_max_floor _ Hlt), H3. reflexivity.
Qed.

Lemma power_floor_witness :
  generateChecklistItems (sample "solo" "1.25" 12)
  = generateChecklistItems (sample "solo" "3.0" 12)
  /\ generateChecklistItems (sample "metalico" "-Infinity" 20)
     = generateChecklistItems (sample "metalico" "3" 20).
Proof.
  split.
  - apply (power_floor (sample "solo" "1.25" 12) (sample "solo" "3.0" 12));
      vm_compute; reflexivity.
  - apply (power_floor (sample "metalico" "-Infinity" 20)
             (sample "metalico" "3" 20));
      vm_compute; reflexivity.
Defined.

(** C4. The AC breaker emitted is 32A when the adjusted power is at most
    5 kW, 40A when it is above 5 and at most 8 kW, and 50A when it is above
    8 kW; the boundaries are strict, so 5.0 gives 32A, 5.01 gives 40A, 8.0
    gives 40A and 8.01 gives 50A. *)
Theorem breaker_tiers (p : ProjectData) :
  let adjustedPower := Math_max (parseFloat (inverterPower p)) 3.0 in
  let breaker := nth_error (generateChecklistItems p) 5 in
  ((adjustedPower <=? 5) = true -> breaker = Some (breakerItem "32"))
  /\ ((5 <? adjustedPower) = true -> (adjustedPower <=? 8) = true ->
      breaker = Some (breakerItem "40"))
  /\ ((8 <? adjustedPower) = true -> breaker = Some (breakerItem "50"))
  /\ (breakerRating 5.0 = 32 /\ breakerRating 5.01 = 40
      /\ breakerRating 8.0 = 40 /\ breakerRating 8.01 = 50).
Proof.
  intros adjustedPower breaker. subst breaker.
  rewrite generate_breaker. fold adjustedPower.
  destruct (breakerRating_tiers adjustedPower) as (T32 & T40 & T50).
  split; [|split; [|split]].
  - intros H. rewrite (T32 H). reflexivity.
  - intros H5 H8. rewrite (T40 H5 H8). reflexivity.
  - intros H. rewrite (T50 H). reflexivity.
  - vm_compute. auto.
Qed.

(** The four boundary projects, run through the generator. *)
Lemma breaker_tiers_witness :
  nth_error (generateChecklistItems (sample "ceramico" "5.0" 6)) 5
  = Some (breakerItem "32")
  /\ nth_error (generateChecklistItems (sample "ceramico" "5.01" 6)) 5
     = Some (breakerItem "40")
  /\ nth_error (generateChecklistItems (sample "ceramico" "8.0" 6)) 5
     = Some (breakerItem "40")
  /\ nth_error (generateChecklistItems (sample "ceramico" "8.01" 6)) 5
     = Some (breakerItem "50").
Proof.
  split; [|split; [|split]].
  - apply (breaker_tiers (sample "ceramico" "5.0" 6)). vm_compute. reflexivity.
  - apply (breaker_tiers (sample "ceramico" "5.01" 6));
      vm_compute; reflexivity.
  - apply (breaker_tiers (sample "ceramico" "8.0" 6));
      vm_compute; reflexivity.
  - apply (breaker_tiers (sample "ceramico" "8.01" 6)).
    vm_compute. reflexivity.
Defined.

(** C5. Unknown roof type: the structure sub-calculator returns the empty
    list, and the generator returns exactly seven items, one safety item
    followed by six electrical-materials items; they are the first seven
    items, unchanged, of any project with the same panel count and parsed
    power, whatever its roof type. *)
Theorem unknown_roof_degrades (p : ProjectData) :
  roofType p <> "ceramico" ->
  roofType p <> "metalico" ->
  roofType p <> "fibrocimento" ->
  roofType p <> "solo" ->
  (forall panelCount numberOfStrings,
      getStructureItems (roofType p) panelCount numberOfStrings = [])
  /\ List.length (generateChecklistItems p) = 7%nat
  /\ map category (generateChecklistItems p)
     = [ "seguranca"; "materiais_eletricos"; "materiais_eletricos";
         "materiais_eletricos"; "materiais_eletricos"; "materiais_eletricos";
         "materiais_eletricos" ]
  /\ (forall q : ProjectData,
        parseFloat (inverterPower q) = parseFloat (inverterPower p) ->
        solarPanelsCount q = solarPanelsCount p ->
        generateChecklistItems p = firstn 7 (generateChecklistItems q)).
Proof.
  intros H1 H2 H3 H4.
  assert (K := known_roof_false _ H1 H2 H3 H4).
  split; [intros c ns; apply getStructureItems_unknown, K|].
  destruct (generate_split p)
    as (a & b1 & b2 & b3 & b4 & b5 & b6 & E & Ha & Hb).
  split; [|split].
  - rewrite E, (getStructureItems_unknown _ _ _ K). reflexivity.
  - rewrite E, (getStructureItems_unknown _ _ _ K).
    split_Forall Hb.
    unfold is_safety, is_electrical in *.
    cbn [map app]. congruence.
  - intros q Hi Hs. unfold generateChecklistItems. cbv zeta.
    rewrite Hi, Hs.
    destruct (stringConfiguration (solarPanelsCount p)) as [[sc ns] pps].
    cbn [push app firstn].
    rewrite (getStructureItems_unknown _ _ _ K). reflexivity.
Qed.

Lemma unknown_roof_degrades_witness :
  getStructureItems "laje" (of_Z 6) (Some 2) = []
  /\ List.length (generateChecklistItems (sample "laje" "3.3" 6)) = 7%nat
  /\ generateChecklistItems (sample "laje" "3.3" 6)
     = firstn 7 (generateChecklistItems (sample_full "ceramico" "3.30" 6)).
Proof.
  split; [|split].
  - apply (unknown_roof_degrades (sample "laje" "3.3" 6)); discriminate.
  - apply (unknown_roof_degrades (sample "laje" "3.3" 6)); discriminate.
  - apply (unknown_roof_degrades (sample "laje" "3.3" 6));
      [discriminate | discriminate | discriminate | discriminate
      | vm_compute; reflexivity | reflexivity].
Defined.

(** C6. Metal roof: the first structure item counts
    [ceil (fixationPoints * 0.7)] trapezoidal clamps and the last one
    [fixationPoints * 2] self-tapping screws, where
    [fixationPoints = ceil (panelCount * 1.2)]; for a panel count from 1 to
    200 these are the exact values of the formulas; 20 panels give 24
    fixation points and 17 clamps. *)
Theorem metal_roof_quantities
    (panelCount : number) (numberOfStrings : option number) :
  let items := getStructureItems "metalico" panelCount numberOfStrings in
  let fixationPoints := Math_ceil (panelCount * 1.2) in
  let clamps := Number_toString (Math_ceil (fixationPoints * 0.7)) in
  let screws := Number_toString (fixationPoints * 2) in
  option_map title (nth_error items 0)
  = Some ("Grampos Trapezoidais (" ++ clamps ++ " un)")
  /\ option_map title (nth_error items 3)
     = Some ("Parafusos Autoperfurantes (" ++ screws ++ " un)")
  /\ (forall n : Z,
        (1 <= n <= 200)%Z -> panelCount = of_Z n ->
        fixationPoints = of_Z (spec_fixationPoints n)
        /\ clamps = digits (spec_trapezoidalClamps n)
        /\ screws = digits (spec_selfTappingScrews n))
  /\ (panelCount = 20 ->
      fixationPoints = 24
      /\ option_map title (nth_error items 0)
         = Some "Grampos Trapezoidais (17 un)").
Proof.
  intros items fixationPoints clamps screws.
  assert (T := getStructureItems_metalico_titles panelCount numberOfStrings).
  fold items in T.
  assert (T0 : option_map title (nth_error items 0)
               = Some ("Grampos Trapezoidais (" ++ clamps ++ " un)")).
  { rewrite <- nth_error_map, T. reflexivity. }
  split; [exact T0|]. split.
  { rewrite <- nth_error_map, T. reflexivity. }
  split.
  - intros n Hn ->.
    pose proof (metal_check_all n Hn) as C. unfold metal_check in C.
    apply Bool.andb_true_iff in C as [C Cs].
    apply Bool.andb_true_iff in C as [Cf Cc].
    apply String.eqb_eq in Cc, Cs. apply FloatAxioms.Leibniz.eqb_spec in Cf.
    auto.
  - intros E. rewrite T0. subst clamps fixationPoints. rewrite E.
    split; vm_compute; reflexivity.
Qed.

Lemma metal_roof_quantities_witness :
  option_map title
    (nth_error (getStructureItems "metalico" (of_Z 20) (Some 3)) 0)
  = Some "Grampos Trapezoidais (17 un)"
  /\ Number_toString (Math_ceil (of_Z 7 * 1.2) * 2)
     = digits (spec_selfTappingScrews 7).
Proof.
  split.
  - apply (metal_roof_quantities 20 (Some 3)). reflexivity.
  - apply (metal_roof_quantities (of_Z 7) None); [lia | reflexivity].
Defined.

(** C7. Single source of truth: the string configuration computed by the
    generator is the one the analysis endpoint and the report endpoint
    compute, for every panel count; it is the one printed on the generated
    string box. *)
Theorem stringConfig_agrees (project : ProjectData) :
  let generated :=
    fst (fst (stringConfiguration (solarPanelsCount project))) in
  generated = analyze_stringConfig project
  /\ generated = report_stringConfig project
  /\ option_map description (nth_error (generateChecklistItems project) 3)
     = Some ("Caixa de proteção CC para configuração "
             ++ analyze_stringConfig project
             ++ ", fusíveis 18A, DPS CC Tipo II").
Proof.
  intros generated.
  assert (E : generated = analyze_stringConfig project).
  { unfold generated, analyze_stringConfig, stringConfiguration.
    destruct (8 <? solarPanelsCount project); reflexivity. }
  split; [exact E|]. split.
  - unfold generated, report_stringConfig, stringConfiguration.
    destruct (8 <? solarPanelsCount project); reflexivity.
  - rewrite generate_stringBox. fold generated. rewrite E. reflexivity.
Qed.

(** C8. Emission order: in the generated sequence every safety item comes
    before every electrical-materials item, and every electrical-materials
    item before every structure item. *)
Theorem category_order (p : ProjectData) (i j : nat) (x y : ChecklistItem) :
  nth_error (generateChecklistItems p) i = Some x ->
  nth_error (generateChecklistItems p) j = Some y ->
  (is_safety x -> is_electrical y -> (i < j)%nat)
  /\ (is_electrical x -> is_structure y -> (i < j)%nat)
  /\ (is_safety x -> is_structure y -> (i < j)%nat).
Proof.
  intros Hx Hy.
  apply generate_positions in Hx, Hy.
  unfold is_safety, is_electrical, is_structure in *.
  repeat split; intros Cx Cy;
    destruct Hx as [[Hi Kx] | [[Hi Kx] | [Hi Kx]]];
    destruct Hy as [[Hj Ky] | [[Hj Ky] | [Hj Ky]]];
    try lia; congruence.
Qed.

Lemma category_order_witness :
  let items := generateChecklistItems (sample "fibrocimento" "6.0" 12) in
  (option_map category (nth_error items 0) = Some "seguranca"
   /\ option_map category (nth_error items 6) = Some "materiais_eletricos"
   /\ option_map category (nth_error items 7) = Some "estrutura")
  /\ (0 < 6 /\ 6 < 7 /\ 0 < 7)%nat.
Proof.
  split; [vm_compute; auto|].
  pose (p := sample "fibrocimento" "6.0" 12).
  pose (d := breakerItem "").
  assert (E0 : nth_error (generateChecklistItems p) 0
               = Some (nth 0 (generateChecklistItems p) d))
    by (vm_compute; reflexivity).
  assert (E6 : nth_error (generateChecklistItems p) 6
               = Some (nth 6 (generateChecklistItems p) d))
    by (vm_compute; reflexivity).
  assert (E7 : nth_error (generateChecklistItems p) 7
               = Some (nth 7 (generateChecklistItems p) d))
    by (vm_compute; reflexivity).
  split; [|split].
  - apply (proj1 (category_order p 0 6 _ _ E0 E6)); vm_compute; reflexivity.
  - apply (proj1 (proj2 (category_order p 6 7 _ _ E6 E7)));
      vm_compute; reflexivity.
  - apply (proj2 (proj2 (category_order p 0 7 _ _ E0 E7)));
      vm_compute; reflexivity.
Defined.

(** C9. The output depends on [roofType], [inverterPower] and
    [solarPanelsCount] alone: two project records that agree on these three
    fields get the same checklist, whatever their other fields hold. *)
Theorem generate_ignores_other_fields (p q : ProjectData) :
  roofType p = roofType q ->
  inverterPower p = inverterPower q ->
  solarPanelsCount p = solarPanelsCount q ->
  generateChecklistItems p = generateChecklistItems q.
Proof.
  intros Hr Hi Hs. apply generate_reads_three_values; congruence.
Qed.

Lemma generate_ignores_other_fields_witness :
  (name (sample "metalico" "11.0" 20)
     =? name (sample_full "metalico" "11.0" 20))%string = false
  /\ generateChecklistItems (sample "metalico" "11.0" 20)
     = generateChecklistItems (sample_full "metalico" "11.0" 20).
Proof.
  split.
  - reflexivity.
  - apply (generate_ignores_other_fields
             (sample "metalico" "11.0" 20) (sample_full "metalico" "11.0" 20));
      reflexivity.
Defined.

(** C10. Item counts: the structure list has four items for ceramico,
    metalico and solo and five for fibrocimento, so the checklist has eleven
    items for the first three roof types and twelve for fibrocimento,
    whatever the panel count and the inverter power. *)
Theorem item_counts (p : ProjectData) :
  (roofType p = "ceramico" \/ roofType p = "metalico" \/ roofType p = "solo" ->
   (forall panelCount numberOfStrings,
       List.length (getStructureItems (roofType p) panelCount numberOfStrings)
       = 4%nat)
   /\ List.length (generateChecklistItems p) = 11%nat)
  /\ (roofType p = "fibrocimento" ->
      (forall panelCount numberOfStrings,
          List.length
            (getStructureItems (roofType p) panelCount numberOfStrings)
          = 5%nat)
      /\ List.length (generateChecklistItems p) = 12%nat).
Proof.
  destruct (generate_split p)
    as (a & b1 & b2 & b3 & b4 & b5 & b6 & E & _ & _).
  assert (L : forall c ns,
             List.length (getStructureItems (roofType p) c ns)
             = structure_count (roofType p))
    by (intros c ns; apply getStructureItems_shape).
  rewrite E. cbn [app List.length]. rewrite L.
  split.
  - intros [R | [R | R]]; rewrite R in *; split;
      solve [reflexivity | intros c ns; rewrite L; reflexivity].
  - intros R; rewrite R in *; split;
      solve [reflexivity | intros c ns; rewrite L; reflexivity].
Qed.

Lemma item_counts_witness :
  List.length (generateChecklistItems (sample "ceramico" "3.3" 6)) = 11%nat
  /\ List.length (generateChecklistItems (sample "metalico" "11.0" 20)) = 11%nat
  /\ List.length (generateChecklistItems (sample "solo" "6.0" 12)) = 11%nat
  /\ List.length (generateChecklistItems (sample "fibrocimento" "4.2" 9))
     = 12%nat.
Proof.
  split; [|split; [|split]].
  - apply (item_counts (sample "ceramico" "3.3" 6)). left. reflexivity.
  - apply (item_counts (sample "metalico" "11.0" 20)).
    right. left. reflexivity.
  - apply (item_counts (sample "solo" "6.0" 12)). right. right. reflexivity.
  - apply (item_counts (sample "fibrocimento" "4.2" 9)). reflexivity.
Defined.

(* ================================================================== *)
(** * The generator against exact arithmetic *)
(* ================================================================== *)

Section ExactParts.

Lemma item_eqb_eq (x y : Routes.ChecklistItem) :
  Exact.item_eqb x y = true -> x = y.
Proof.
  destruct x as [t1 d1 c1], y as [t2 d2 c2]. unfold Exact.item_eqb. cbn.
  intros H. apply Bool.andb_true_iff in H as [H Hc].
  apply Bool.andb_true_iff in H as [Ht Hd].
  apply String.eqb_eq in Ht, Hd, Hc. congruence.
Qed.

Lemma items_eqb_eq (l1 l2 : list Routes.ChecklistItem) :
  Exact.items_eqb l1 l2 = true -> l1 = l2.
Proof.
  revert l2. induction l1 as [| x l1 IH]; intros [| y l2] H;
    try reflexivity; try discriminate H.
  cbn [Exact.items_eqb] in H. apply Bool.andb_true_iff in H as [Hx Hl].
  apply item_eqb_eq in Hx. apply IH in Hl. congruence.
Qed.

(** A list of at least seven items, cut after the fourth and the seventh. *)
Lemma three_parts {A} (l : list A) :
  l = (firstn 4 l ++ firstn 3 (skipn 4 l) ++ skipn 7 l)%list.
Proof.
  rewrite <- (firstn_skipn 4 l) at 1. f_equal.
  rewrite <- (firstn_skipn 3 (skipn 4 l)) at 1. f_equal.
  rewrite skipn_skipn. reflexivity.
Qed.

Variables p q : ProjectData.

(** The first four items read the panel count only. *)
Lemma generate_count_part :
  solarPanelsCount p = solarPanelsCount q ->
  firstn 4 (generateChecklistItems p) = firstn 4 (generateChecklistItems q).
Proof.
  intros Hs. unfold generateChecklistItems. rewrite Hs.
  destruct (stringConfiguration (solarPanelsCount q)) as [[sc n] pps].
  reflexivity.
Qed.

(** The next three are [power_view] of the adjusted power. *)
Lemma generate_power_part :
  firstn 3 (skipn 4 (generateChecklistItems p))
  = Exact.power_view (Math_max (parseFloat (inverterPower p)) 3).
Proof.
  unfold generateChecklistItems.
  destruct (stringConfiguration (solarPanelsCount p)) as [[sc n] pps].
  reflexivity.
Qed.

(** The rest is the output of [getStructureItems]. *)
Lemma generate_structure_part :
  skipn 7 (generateChecklistItems p)
  = getStructureItems (roofType p) (solarPanelsCount p) (Some (stringsOf p)).
Proof.
  unfold generateChecklistItems, stringsOf.
  destruct (stringConfiguration (solarPanelsCount p)) as [[sc n] pps].
  reflexivity.
Qed.

End ExactParts.

Section Views.

Variable p : ProjectData.

(** The first four items are [count_view] of the panel count. *)
Lemma generate_count_view :
  firstn 4 (generateChecklistItems p)
  = Exact.count_view (solarPanelsCount p).
Proof.
  unfold generateChecklistItems, stringConfiguration, Exact.count_view.
  cbv zeta.
  replace (Number_toString (Math_ceil (550 / 40 * 1.25))) with "18"
    by (vm_compute; reflexivity).
  destruct (8 <? solarPanelsCount p).
  - replace (Number_toString (Math_ceil (3 * 0.5))) with "2"
      by (vm_compute; reflexivity).
    replace (Number_toString (Math_max 3 (Math_ceil (3 + 1)))) with "4"
      by (vm_compute; reflexivity).
    replace (Number_toString 3) with "3" by (vm_compute; reflexivity).
    reflexivity.
  - replace (Number_toString (Math_ceil (2 * 0.5))) with "1"
      by (vm_compute; reflexivity).
    replace (Number_toString (Math_max 3 (Math_ceil (2 + 1)))) with "3"
      by (vm_compute; reflexivity).
    replace (Number_toString 2) with "2" by (vm_compute; reflexivity).
    reflexivity.
Qed.

End Views.

Lemma count_part_exact (n : Z) :
  (1 <= n <= 200)%Z -> Exact.count_view (of_Z n) = Exact.count_items n.
Proof.
  intros Hn. apply items_eqb_eq.
  apply (all_from_spec Exact.count_part_check 200 1%Z);
    [vm_compute; reflexivity | lia].
Qed.

(** An integer from 0 to 1000 is printed as its decimal digits. *)
Lemma toString_small (z : Z) :
  (0 <= z <= 1000)%Z -> Number_toString (of_Z z) = digits z.
Proof.
  intros Hz. apply String.eqb_eq.
  apply (all_from_spec Exact.small_integer_check 1001 0%Z);
    [vm_compute; reflexivity | lia].
Qed.

Lemma power_part_checked (k : Z) :
  (1 <= k <= 1000)%Z -> Exact.power_part_check k = true.
Proof.
  intros Hk.
  apply (all_from_spec Exact.power_part_check 1000 1%Z);
    [vm_compute; reflexivity | lia].
Qed.

(** The adjusted power is printed as [k / 10] in decimal. *)
Lemma power_text_exact (k : Z) :
  (1 <= k <= 1000)%Z ->
  Number_toString (Math_max (round_ratio k 10) 3)
  = Exact.decimal1 (Exact.adjusted k).
Proof.
  intros Hk. pose proof (power_part_checked k Hk) as C.
  unfold Exact.power_part_check in C. cbv zeta in C.
  apply Bool.andb_true_iff in C as [C _].
  apply Bool.andb_true_iff in C as [C _].
  apply Bool.andb_true_iff in C as [_ C].
  apply String.eqb_eq in C. exact C.
Qed.

Lemma power_part_exact (k : Z) :
  (1 <= k <= 1000)%Z ->
  Exact.power_view (Math_max (round_ratio k 10) 3) = Exact.power_items k.
Proof.
  intros Hk. pose proof (power_part_checked k Hk) as C.
  unfold Exact.power_part_check in C. cbv zeta in C.
  apply Bool.andb_true_iff in C as [C C6].
  apply Bool.andb_true_iff in C as [C C5].
  apply Bool.andb_true_iff in C as [C C4].
  apply Bool.andb_true_iff in C as [C C3].
  apply Bool.andb_true_iff in C as [C1 C2].
  apply String.eqb_eq in C4, C6.
  apply FloatAxioms.Leibniz.eqb_spec in C1, C5.
  apply Z.leb_le in C2, C3.
  unfold Exact.power_view, Exact.power_items.
  rewrite C1, C4, C5, C6, (toString_small _ (conj C2 C3)).
  rewrite toString_small; [reflexivity|].
  unfold Exact.breakerCurrent.
  destruct (80 <? Exact.adjusted k)%Z; [lia|].
  destruct (50 <? Exact.adjusted k)%Z; lia.
Qed.

Lemma structure_part_checked (r : string) (n : Z) :
  (1 <= n <= 200)%Z -> Exact.structure_part_check r n = true.
Proof.
  intros Hn.
  assert (S : PrimFloat.Leibniz.eqb (snd (fst (stringConfiguration (of_Z n))))
                (of_Z (Exact.numberOfStrings n)) = true).
  { apply (all_from_spec
             (fun n => PrimFloat.Leibniz.eqb
                         (snd (fst (stringConfiguration (of_Z n))))
                         (of_Z (Exact.numberOfStrings n))) 200 1%Z);
      [vm_compute; reflexivity | lia]. }
  unfold Exact.structure_part_check. rewrite S, Bool.andb_true_r.
  destruct (known_roof r) eqn:K.
  - unfold known_roof in K.
    destruct (String.eqb_spec r "ceramico") as [-> | _].
    { apply (all_from_spec
               (fun n => Exact.items_eqb
                           (getStructureItems "ceramico" (of_Z n)
                              (Some (of_Z (Exact.numberOfStrings n))))
                           (Exact.structure_items "ceramico" n)) 200 1%Z);
        [vm_compute; reflexivity | lia]. }
    destruct (String.eqb_spec r "metalico") as [-> | _].
    { apply (all_from_spec
               (fun n => Exact.items_eqb
                           (getStructureItems "metalico" (of_Z n)
                              (Some (of_Z (Exact.numberOfStrings n))))
                           (Exact.structure_items "metalico" n)) 200 1%Z);
        [vm_compute; reflexivity | lia]. }
    destruct (String.eqb_spec r "fibrocimento") as [-> | _].
    { apply (all_from_spec
               (fun n => Exact.items_eqb
                           (getStructureItems "fibrocimento" (of_Z n)
                              (Some (of_Z (Exact.numberOfStrings n))))
                           (Exact.structure_items "fibrocimento" n)) 200 1%Z);
        [vm_compute; reflexivity | lia]. }
    destruct (String.eqb_spec r "solo") as [-> | _].
    { apply (all_from_spec
               (fun n => Exact.items_eqb
                           (getStructureItems "solo" (of_Z n)
                              (Some (of_Z (Exact.numberOfStrings n))))
                           (Exact.structure_items "solo" n)) 200 1%Z);
        [vm_compute; reflexivity | lia]. }
    discriminate K.
  - rewrite (getStructureItems_unknown _ _ _ K).
    unfold Exact.structure_items. unfold known_roof in K.
    destruct (String.eqb r "ceramico"); [discriminate K|].
    destruct (String.eqb r "metalico"); [discriminate K|].
    destruct (String.eqb r "fibrocimento"); [discriminate K|].
    destruct (String.eqb r "solo"); [discriminate K|].
    reflexivity.
Qed.

(** The structure items of a project with [n] panels. *)
Lemma generate_structure_exact (p : ProjectData) (n : Z) :
  solarPanelsCount p = of_Z n -> (1 <= n <= 200)%Z ->
  skipn 7 (generateChecklistItems p) = Exact.structure_items (roofType p) n.
Proof.
  intros Hs Hn.
  pose proof (structure_part_checked (roofType p) n Hn) as C.
  unfold Exact.structure_part_check in C.
  apply Bool.andb_true_iff in C as [C1 C2].
  apply items_eqb_eq in C1. apply FloatAxioms.Leibniz.eqb_spec in C2.
  rewrite generate_structure_part. unfold stringsOf.
  rewrite Hs, C2. exact C1.
Qed.

Lemma generate_count_exact (p : ProjectData) (n : Z) :
  solarPanelsCount p = of_Z n -> (1 <= n <= 200)%Z ->
  firstn 4 (generateChecklistItems p) = Exact.count_items n.
Proof.
  intros Hs Hn. rewrite <- (count_part_exact n Hn), <- Hs.
  apply generate_count_view.
Qed.

Lemma generate_power_exact (p : ProjectData) (k : Z) :
  parseFloat (inverterPower p) = round_ratio k 10 -> (1 <= k <= 1000)%Z ->
  firstn 3 (skipn 4 (generateChecklistItems p)) = Exact.power_items k.
Proof.
  intros Hp Hk. rewrite generate_power_part, Hp.
  apply power_part_exact, Hk.
Qed.

(** X1. On the form's domain the floating-point generator is exact: for
    1 to 200 panels and an inverter power of [k / 10] kW with
    [1 <= k <= 1000], every title and description of the checklist is the
    one the formulas give over the integers, for every roof type. *)
Theorem generator_is_exact (p : ProjectData) (n k : Z) :
  solarPanelsCount p = of_Z n -> (1 <= n <= 200)%Z ->
  parseFloat (inverterPower p) = round_ratio k 10 -> (1 <= k <= 1000)%Z ->
  generateChecklistItems p = Exact.checklist (roofType p) k n.
Proof.
  intros Hs Hn Hp Hk.
  rewrite (three_parts (generateChecklistItems p)).
  rewrite (generate_count_exact p n Hs Hn), (generate_power_exact p k Hp Hk),
    (generate_structure_exact p n Hs Hn).
  reflexivity.
Qed.

Lemma generator_is_exact_witness :
  generateChecklistItems (sample_full "fibrocimento" "7.5" 37)
  = Exact.checklist "fibrocimento" 75 37.
Proof.
  apply (generator_is_exact (sample_full "fibrocimento" "7.5" 37) 37 75);
    [reflexivity | lia | vm_compute; reflexivity | lia].
Defined.

(* ================================================================== *)
(** * Every number: what the tiers and the threshold decide *)
(* ================================================================== *)

Section MoreFloatOrder.

Variable a : float.

(** [c < a] excludes [a <= c]. *)
Lemma ltb_true_leb_false (c : float) : (c <? a) = true -> (a <=? c) = false.
Proof.
  rewrite FloatAxioms.leb_spec, FloatAxioms.ltb_spec. unfold SFleb, SFltb.
  rewrite (SFcompare_antisym (Prim2SF c) (Prim2SF a)).
  destruct (SFcompare (Prim2SF c) (Prim2SF a)) as [[ | | ] | ];
    simpl; congruence.
Qed.

(** Above 15 is above 5. *)
Lemma ltb_15_ltb_5 : (15 <? a) = true -> (5 <? a) = true.
Proof.
  rewrite !FloatAxioms.ltb_spec.
  change (Prim2SF 15) with (S754_finite false 8444249301319680 (-49)).
  change (Prim2SF 5) with (S754_finite false 5629499534213120 (-50)).
  unfold SFltb, SFcompare.
  destruct (Prim2SF a) as [s | s | | s m e]; try congruence.
  destruct s; try congruence.
  destruct (Z.compare_spec (-49) e) as [E | L | G];
    destruct (Z.compare_spec (-50) e) as [E' | L' | G'];
    intros H; try reflexivity; try discriminate H; lia.
Qed.

(** NaN is the only number that differs from itself. *)
Lemma is_nan_eq : PrimFloat.is_nan a = true -> a = nan.
Proof.
  unfold PrimFloat.is_nan. rewrite FloatAxioms.eqb_spec. unfold SFeqb.
  intros H. apply Prim2SF_inj. change (Prim2SF nan) with S754_nan.
  destruct (Prim2SF a) as [s | s | | s m e] eqn:E; try reflexivity;
    rewrite SFcompare_refl_not_nan in H by discriminate; discriminate H.
Qed.

(** A number that is at least 3 is not NaN, is above [-Infinity], and is
    what [Math.max] returns against 3. *)
Lemma leb_3_not_nan : (3 <=? a) = true -> PrimFloat.is_nan a = false.
Proof.
  intros H. destruct (PrimFloat.is_nan a) eqn:N; [|reflexivity].
  apply is_nan_eq in N. subst a. discriminate H.
Qed.

Lemma leb_3_above_neg_infinity :
  (3 <=? a) = true -> (neg_infinity <? a) = true.
Proof.
  rewrite FloatAxioms.leb_spec, FloatAxioms.ltb_spec.
  change (Prim2SF 3) with (S754_finite false 6755399441055744 (-51)).
  change (Prim2SF neg_infinity) with (S754_infinity true).
  unfold SFleb, SFltb, SFcompare.
  destruct (Prim2SF a) as [s | s | | s m e]; try congruence.
  destruct s; congruence.
Qed.

Lemma Math_max_above_floor : (3 <=? a) = true -> Math_max a 3 = a.
Proof.
  intros H.
  unfold Math_max, Math_max_list. cbn [fold_left].
  unfold max_step at 2.
  rewrite (leb_3_not_nan H).
  change (is_neg_zero neg_infinity) with false.
  rewrite Bool.andb_false_r, (leb_3_above_neg_infinity H).
  unfold max_step.
  change (PrimFloat.is_nan 3) with false.
  change (is_pos_zero 3) with false.
  cbn [andb].
  rewrite (leb_true_ltb_false _ _ H). reflexivity.
Qed.

End MoreFloatOrder.

Lemma Math_max_nan : Math_max nan 3 = nan.
Proof. reflexivity. Qed.


(** X2. The surge protector is rated 20kA when the adjusted power is at
    most 5 kW, 40kA above 5 and up to 15 kW, and 60kA above 15 kW; its
    description names the adjusted power. *)
Theorem surge_protector_tiers (p : ProjectData) :
  let adjustedPower := Math_max (parseFloat (inverterPower p)) 3.0 in
  let surge rating :=
    Some ("Dispositivo de proteção contra surtos CA, " ++ rating
          ++ ", adequado para " ++ Number_toString adjustedPower ++ "kW") in
  let described :=
    option_map description (nth_error (generateChecklistItems p) 6) in
  ((adjustedPower <=? 5) = true -> described = surge "20kA")
  /\ ((5 <? adjustedPower) = true -> (adjustedPower <=? 15) = true ->
      described = surge "40kA")
  /\ ((15 <? adjustedPower) = true -> described = surge "60kA").
Proof.
  intros adjustedPower surge described.
  assert (E : described
              = option_map description
                  (nth_error (Exact.power_view adjustedPower) 2)).
  { unfold described, adjustedPower. rewrite <- generate_power_part.
    rewrite nth_error_firstn, nth_error_skipn. reflexivity. }
  rewrite E. unfold Exact.power_view, Exact.power_template, surge.
  cbn [nth_error option_map description].
  split; [|split].
  - intros H. rewrite H. reflexivity.
  - intros H5 H15. rewrite (ltb_true_leb_false _ _ H5), H15. reflexivity.
  - intros H15. rewrite (ltb_true_leb_false _ _ H15).
    rewrite (ltb_true_leb_false _ _ (ltb_15_ltb_5 _ H15)). reflexivity.
Qed.

Lemma surge_protector_tiers_witness :
  option_map description
    (nth_error (generateChecklistItems (sample "solo" "15.0" 12)) 6)
  = Some "Dispositivo de proteção contra surtos CA, 40kA, adequado para 15kW"
  /\ option_map description
       (nth_error (generateChecklistItems (sample "solo" "15.01" 12)) 6)
     = Some "Dispositivo de proteção contra surtos CA, 60kA, adequado para 15.01kW".
Proof.
  split.
  - apply (surge_protector_tiers (sample "solo" "15.0" 12));
      vm_compute; reflexivity.
  - apply (surge_protector_tiers (sample "solo" "15.01" 12)).
    vm_compute. reflexivity.
Defined.

(** X3. An inverter power that does not parse (NaN) is not floored: the
    generator still returns, with a cable length and a power printed as
    [NaN], the smallest breaker (32A) and the largest surge protector
    (60kA). *)
Theorem unparseable_power (p : ProjectData) :
  isNaN (parseFloat (inverterPower p)) = true ->
  firstn 3 (skipn 4 (generateChecklistItems p))
  = Exact.power_template "NaN" "NaN" "32" "60kA".
Proof.
  intros H. apply is_nan_eq in H.
  rewrite generate_power_part, H. vm_compute. reflexivity.
Qed.

Lemma unparseable_power_witness :
  map title
      (firstn 3 (skipn 4 (generateChecklistItems (sample "solo" "dez" 12))))
  = ["Cabo CA 6mm² (NaNm)"; "Disjuntor CA 32A"; "DPS CA Classe II"].
Proof.
  rewrite (unparseable_power (sample "solo" "dez" 12)) by reflexivity.
  reflexivity.
Defined.

(** X4. Whatever the panel count (fractional, out of range or NaN), the
    first four items vary with it through the two cable lengths and the
    test [count > 8] only: one grounding rod, three MC4 pairs and two
    strings (2x2) unless the count is above 8, then two rods, four pairs and
    three strings (3x3); the string-box fuses are always 18A. *)
Theorem count_items_by_threshold (p : ProjectData) :
  let count := solarPanelsCount p in
  let many := 8 <? count in
  firstn 4 (generateChecklistItems p)
  = Exact.count_template
      (if many then "2" else "1")
      (Number_toString (Math_ceil (count * 2)))
      (Number_toString (Math_ceil (count * 4.5)))
      (Number_toString (Math_ceil (Math_ceil (count * 4.5) / 2)))
      (if many then "4" else "3")
      (if many then "3" else "2")
      (if many then "3x3" else "2x2")
      "18".
Proof.
  intros count many. exact (generate_count_view p).
Qed.

(* ================================================================== *)
(** * Quantities of the structure items *)
(* ================================================================== *)

(** An item of the structure part, by its position in the whole list. *)
Lemma generate_structure_nth (p : ProjectData) (n : Z) (i : nat) :
  solarPanelsCount p = of_Z n -> (1 <= n <= 200)%Z ->
  nth_error (generateChecklistItems p) (7 + i)
  = nth_error (Exact.structure_items (roofType p) n) i.
Proof.
  intros Hs Hn. rewrite <- (generate_structure_exact p n Hs Hn).
  rewrite nth_error_skipn. reflexivity.
Qed.

Lemma ceil_ratio_bounds (a b : Z) :
  (0 < b)%Z -> (a <= ceil_ratio a b * b < a + b)%Z.
Proof.
  intros Hb. unfold ceil_ratio.
  pose proof (Z.div_mod (- a) b ltac:(lia)) as E.
  pose proof (Z.mod_pos_bound (- a) b Hb) as M.
  nia.
Qed.

(** X5. Ceramic roof: the clamp item is titled with [2 n] clamps, but its
    description counts [ceil (0.2 n)] terminal and [ceil (1.8 n)]
    intermediate clamps, both positive, which add up to one more than
    [2 n] unless [n] is a multiple of 5. *)
Theorem ceramic_clamps_overcount (p : ProjectData) (n : Z) :
  roofType p = "ceramico" ->
  solarPanelsCount p = of_Z n -> (1 <= n <= 200)%Z ->
  nth_error (generateChecklistItems p) 9
  = Some {| title := "Grampos de Fixação (" ++ digits (n * 2) ++ " un)";
            description := digits (ceil_ratio (n * 2) 10)
                           ++ " grampos terminais + "
                           ++ digits (ceil_ratio (n * 18) 10)
                           ++ " intermediários, alumínio anodizado";
            category := "estrutura" |}
  /\ (0 < n * 2)%Z
  /\ (0 < ceil_ratio (n * 2) 10 <= ceil_ratio (n * 18) 10)%Z
  /\ (ceil_ratio (n * 2) 10 + ceil_ratio (n * 18) 10
      = n * 2 + (if (n mod 5 =? 0)%Z then 0 else 1))%Z.
Proof.
  intros Hr Hs Hn.
  pose proof (ceil_ratio_bounds (n * 2) 10 ltac:(lia)) as B1.
  pose proof (ceil_ratio_bounds (n * 18) 10 ltac:(lia)) as B2.
  split; [|split; [|split]].
  - change 9%nat with (7 + 2)%nat.
    rewrite (generate_structure_nth p n 2 Hs Hn), Hr. reflexivity.
  - lia.
  - lia.
  - pose proof (Z.div_mod n 5 ltac:(lia)) as D.
    pose proof (Z.mod_pos_bound n 5 ltac:(lia)) as M.
    destruct (Z.eqb_spec (n mod 5) 0) as [E | E]; lia.
Qed.

Lemma ceramic_clamps_overcount_witness :
  nth_error (generateChecklistItems (sample "ceramico" "3.3" 6)) 9
  = Some {| title := "Grampos de Fixação (12 un)";
            description := "2 grampos terminais + 11 intermediários, alumínio anodizado";
            category := "estrutura" |}
  /\ (ceil_ratio (6 * 2) 10 + ceil_ratio (6 * 18) 10 = 13)%Z.
Proof.
  split.
  - apply (ceramic_clamps_overcount (sample "ceramico" "3.3" 6) 6);
      [reflexivity | reflexivity | lia].
  - apply (ceramic_clamps_overcount (sample "ceramico" "3.3" 6) 6);
      [reflexivity | reflexivity | lia].
Defined.

(** X6. Roofs with rails (ceramico, metalico, fibrocimento): the rail item
    is titled with a length [T] that covers 2.1 m per panel and exceeds it
    by less than 9.3 m. *)
Theorem rails_cover_panels (p : ProjectData) (n : Z) :
  roofType p = "ceramico" \/ roofType p = "metalico"
  \/ roofType p = "fibrocimento" ->
  solarPanelsCount p = of_Z n -> (1 <= n <= 200)%Z ->
  exists T : Z,
    option_map title (nth_error (generateChecklistItems p) 8)
    = Some ("Trilhos de Alumínio Anodizado (" ++ digits T ++ "m)")
    /\ (21 * n <= 10 * T < 21 * n + 93)%Z.
Proof.
  intros Hr Hs Hn. exists (Exact.totalRailLength n). split.
  - change 8%nat with (7 + 1)%nat.
    rewrite (generate_structure_nth p n 1 Hs Hn).
    destruct Hr as [-> | [-> | ->]]; reflexivity.
  - unfold Exact.totalRailLength, Exact.panelsPerRow, Exact.numberOfStrings.
    destruct (8 <? n)%Z.
    + pose proof (ceil_ratio_bounds n 3 ltac:(lia)) as B1.
      pose proof (ceil_ratio_bounds (ceil_ratio n 3 * 21) 10 ltac:(lia)) as B2.
      lia.
    + pose proof (ceil_ratio_bounds n 2 ltac:(lia)) as B1.
      pose proof (ceil_ratio_bounds (ceil_ratio n 2 * 21) 10 ltac:(lia)) as B2.
      lia.
Qed.

Lemma rails_cover_panels_witness :
  exists T : Z,
    option_map title
      (nth_error (generateChecklistItems (sample "metalico" "11.0" 20)) 8)
    = Some ("Trilhos de Alumínio Anodizado (" ++ digits T ++ "m)")
    /\ (21 * 20 <= 10 * T < 21 * 20 + 93)%Z.
Proof.
  apply (rails_cover_panels (sample "metalico" "11.0" 20) 20);
    [right; left; reflexivity | reflexivity | lia].
Defined.

(** X7. Ground mount: the kits hold six panels each and are just enough for
    the panels, while the foundations, the anchor kits and the grounding
    rods are 4 up to 8 panels and 6 above, however many kits there are. *)
Theorem ground_mount_quantities (p : ProjectData) (n : Z) :
  roofType p = "solo" ->
  solarPanelsCount p = of_Z n -> (1 <= n <= 200)%Z ->
  exists kits foundations : Z,
    map title (skipn 7 (generateChecklistItems p))
    = [ "Estrutura Solo Fixa (" ++ digits kits ++ " kits)";
        "Fundações de Concreto (" ++ digits foundations ++ " un)";
        "Kit de Ancoragem (" ++ digits foundations ++ " kits)";
        "Sistema de Aterramento Solo" ]
    /\ option_map description (nth_error (generateChecklistItems p) 10)
       = Some ("Malha de aterramento com " ++ digits foundations
               ++ " hastes cobreadas interligadas, cabo nu 25mm²")
    /\ (n <= 6 * kits < n + 6)%Z
    /\ foundations = (if (n <=? 8)%Z then 4 else 6)%Z.
Proof.
  intros Hr Hs Hn.
  exists (ceil_ratio n 6), (Exact.foundationPoints n).
  split; [|split; [|split]].
  - rewrite (generate_structure_exact p n Hs Hn), Hr. reflexivity.
  - change 10%nat with (7 + 3)%nat.
    rewrite (generate_structure_nth p n 3 Hs Hn), Hr. reflexivity.
  - pose proof (ceil_ratio_bounds n 6 ltac:(lia)). lia.
  - unfold Exact.foundationPoints, Exact.numberOfStrings.
    destruct (Z.ltb_spec 8 n), (Z.leb_spec n 8); lia.
Qed.

Lemma ground_mount_quantities_witness :
  exists kits foundations : Z,
    map title (skipn 7 (generateChecklistItems (sample "solo" "50" 200)))
    = [ "Estrutura Solo Fixa (" ++ digits kits ++ " kits)";
        "Fundações de Concreto (" ++ digits foundations ++ " un)";
        "Kit de Ancoragem (" ++ digits foundations ++ " kits)";
        "Sistema de Aterramento Solo" ]
    /\ option_map description
         (nth_error (generateChecklistItems (sample "solo" "50" 200)) 10)
       = Some ("Malha de aterramento com " ++ digits foundations
               ++ " hastes cobreadas interligadas, cabo nu 25mm²")
    /\ (200 <= 6 * kits < 200 + 6)%Z
    /\ foundations = 6%Z.
Proof.
  apply (ground_mount_quantities (sample "solo" "50" 200) 200);
    [reflexivity | reflexivity | lia].
Defined.

(* ================================================================== *)
(** * Projects that pass the schema *)
(* ================================================================== *)

(** X8. A power that passes the schema is between 3 and 100, the
    generator's floor leaves it as entered, and the three power items are
    computed from it. *)
Theorem validated_power_is_kept (p : ProjectData) :
  Schema.inverterPower_check (inverterPower p) = true ->
  let power := parseFloat (inverterPower p) in
  (3 <=? power) = true /\ (power <=? 100) = true
  /\ Math_max power 3.0 = power
  /\ firstn 3 (skipn 4 (generateChecklistItems p)) = Exact.power_view power.
Proof.
  unfold Schema.inverterPower_check. cbv zeta. intros H.
  apply Bool.andb_true_iff in H as [H H100].
  apply Bool.andb_true_iff in H as [_ H3].
  split; [exact H3|]. split; [exact H100|].
  assert (M := Math_max_above_floor _ H3).
  split; [exact M|]. rewrite generate_power_part, M. reflexivity.
Qed.

Lemma validated_power_is_kept_witness :
  Math_max (parseFloat "7.25") 3.0 = parseFloat "7.25"
  /\ map title
       (firstn 3 (skipn 4
          (generateChecklistItems (sample "solo" "7.25" 12))))
     = ["Cabo CA 6mm² (29m)"; "Disjuntor CA 40A"; "DPS CA Classe II"].
Proof.
  destruct (validated_power_is_kept (sample "solo" "7.25" 12) eq_refl)
    as (_ & _ & M & V).
  split; [exact M|]. rewrite V. vm_compute. reflexivity.
Defined.

Lemma roofType_check_known (r : string) :
  Schema.roofType_check r = known_roof r.
Proof.
  unfold Schema.roofType_check, known_roof. cbn [existsb].
  rewrite Bool.orb_false_r, !Bool.orb_assoc. reflexivity.
Qed.

Lemma structure_count_known (r : string) :
  known_roof r = true ->
  structure_count r = (if String.eqb r "fibrocimento" then 5 else 4)%nat.
Proof.
  intros K. unfold structure_count. rewrite K. reflexivity.
Qed.

(** X9. For a project that passes the schema, the create route builds
    eleven item rows for storage, or twelve on fibrocimento, never the
    seven of an unknown roof type; each carries the project's id,
    [isCompleted = 0] and the generator's title, description and category,
    in the generator's order.  A status longer than 20 code units does not
    pass the schema. *)
Theorem validated_project_items (projectId : number) (p : ProjectData) :
  Schema.checks p = true ->
  let items := Handlers.checklistItems projectId p in
  List.length items
  = (if String.eqb (roofType p) "fibrocimento" then 12 else 11)%nat
  /\ Forall (fun i => Handlers.projectId i = projectId
                      /\ Handlers.isCompleted i = 0) items
  /\ map Handlers.title items = map title (generateChecklistItems p)
  /\ map Handlers.description items
     = map description (generateChecklistItems p)
  /\ map Handlers.category items = map category (generateChecklistItems p)
  /\ (forall s, status p = Some s -> (Schema.JS_length s <= 20)%nat).
Proof.
  intros H items. unfold Schema.checks in H.
  apply Bool.andb_true_iff in H as [H Hst].
  apply Bool.andb_true_iff in H as [H _].
  apply Bool.andb_true_iff in H as [H _].
  apply Bool.andb_true_iff in H as [_ Hr].
  rewrite roofType_check_known in Hr.
  unfold items, Handlers.checklistItems.
  split; [|split; [|split; [|split; [|split]]]].
  - rewrite length_map.
    destruct (generate_split p)
      as (a & b1 & b2 & b3 & b4 & b5 & b6 & E & _ & _).
    rewrite E, !length_app.
    destruct (getStructureItems_shape (roofType p) (solarPanelsCount p)
                (Some (stringsOf p))) as [_ L].
    rewrite L, (structure_count_known _ Hr).
    destruct (String.eqb (roofType p) "fibrocimento"); reflexivity.
  - apply Forall_forall. intros i Hi. apply in_map_iff in Hi.
    destruct Hi as (x & <- & _). split; reflexivity.
  - rewrite map_map. reflexivity.
  - rewrite map_map. reflexivity.
  - rewrite map_map. reflexivity.
  - intros s Es. unfold Schema.status_check in Hst. rewrite Es in Hst.
    apply Nat.leb_le, Hst.
Qed.

Lemma validated_project_items_witness :
  List.length
    (Handlers.checklistItems 42 (sample_full "fibrocimento" "4.2" 9))
  = 12%nat.
Proof.
  apply (validated_project_items 42 (sample_full "fibrocimento" "4.2" 9)).
  reflexivity.
Defined.

(* ================================================================== *)
(** * The new-project form *)
(* ================================================================== *)

(** X10. Typing a panel count from 1 to 1000 makes the form store that
    count and fill in 0.44 kW per panel, rounded half up to one decimal and
    at least 3.0; it is the 3.0 floor exactly up to 6 panels.  The
    filled-in power passes the schema up to 227 panels and fails it from
    228 panels on. *)
Theorem autofill_power_is_valid (n : Z) :
  (1 <= n <= 1000)%Z ->
  let power := ExactClient.tenths (ExactClient.recommended_tenths n) in
  NewProjectForm.onPanelsChange (digits n) = (of_Z n, Some power)
  /\ Schema.inverterPower_check power = (n <=? 227)%Z
  /\ ((n <= 6)%Z -> power = "3.0")
  /\ ((6 < n)%Z -> (30 < ExactClient.recommended_tenths n)%Z).
Proof.
  intros Hn power.
  assert (C : ExactClient.autofill_check n = true).
  { apply (all_from_spec ExactClient.autofill_check 1000 1%Z);
      [vm_compute; reflexivity | lia]. }
  unfold ExactClient.autofill_check in C.
  destruct (NewProjectForm.onPanelsChange (digits n)) as [count [s|]];
    [|discriminate C].
  apply Bool.andb_true_iff in C as [C C3].
  apply Bool.andb_true_iff in C as [C1 C2].
  apply FloatAxioms.Leibniz.eqb_spec in C1. apply String.eqb_eq in C2.
  apply Bool.eqb_prop in C3.
  subst count s. fold power in C3 |- *.
  split; [reflexivity|]. split; [exact C3|].
  assert (D : (10 * ((44 * n + 5) / 10) <= 44 * n + 5
               < 10 * ((44 * n + 5) / 10) + 10)%Z).
  { pose proof (Z.div_mod (44 * n + 5) 10 ltac:(lia)).
    pose proof (Z.mod_pos_bound (44 * n + 5) 10 ltac:(lia)). lia. }
  split.
  - intros H6. unfold power, ExactClient.recommended_tenths.
    replace (Z.max 30 ((44 * n + 5) / 10)) with 30%Z by lia. reflexivity.
  - intros H6. unfold ExactClient.recommended_tenths. lia.
Qed.

Lemma autofill_power_is_valid_witness :
  NewProjectForm.onPanelsChange "20" = (20, Some "8.8")
  /\ Schema.inverterPower_check "8.8" = true
  /\ NewProjectForm.onPanelsChange "228" = (228, Some "100.3")
  /\ Schema.inverterPower_check "100.3" = false.
Proof.
  split; [|split; [|split]].
  - apply (autofill_power_is_valid 20). lia.
  - apply (autofill_power_is_valid 20). lia.
  - apply (autofill_power_is_valid 228). lia.
  - apply (autofill_power_is_valid 228). lia.
Defined.

(* ================================================================== *)
(** * The project page *)
(* ================================================================== *)

Section Progress.

Import ProjectDetails.

Lemma filter_length_le {A} (f : A -> bool) (l : list A) :
  (List.length (filter f l) <= List.length l)%nat.
Proof.
  induction l as [| x l IH]; cbn; [lia|]. destruct (f x); cbn; lia.
Qed.

Lemma filter_length_all {A} (f : A -> bool) (l : list A) :
  List.length (filter f l) = List.length l <-> forallb f l = true.
Proof.
  induction l as [| x l IH]; cbn; [tauto|].
  pose proof (filter_length_le f l). destruct (f x); cbn.
  - rewrite <- IH. lia.
  - split; [lia | discriminate].
Qed.

Lemma filter_length_none {A} (f : A -> bool) (l : list A) :
  List.length (filter f l) = 0%nat <-> existsb f l = false.
Proof.
  induction l as [| x l IH]; cbn; [tauto|].
  destruct (f x); cbn; [split; [lia | discriminate] | exact IH].
Qed.

Lemma progress_exact_counts (c t : Z) :
  (0 <= c <= t)%Z -> (1 <= t <= 39)%Z ->
  ExactClient.progress_of c t = of_Z (ExactClient.percent c t).
Proof.
  intros Hc Ht.
  assert (C : ExactClient.progress_check t = true).
  { apply (all_from_spec ExactClient.progress_check 39 1%Z);
      [vm_compute; reflexivity | lia]. }
  apply FloatAxioms.Leibniz.eqb_spec.
  apply (all_from_spec _ _ _ C). lia.
Qed.

Lemma progress_extreme_counts (c t : Z) :
  (0 <= c <= t)%Z -> (1 <= t <= 199)%Z ->
  let v := ExactClient.progress_of c t in
  (v =? 100) = (c =? t)%Z /\ (0 <? v) = (0 <? c)%Z
  /\ (v <? 100) = (c <? t)%Z.
Proof.
  intros Hc Ht v.
  assert (C : ExactClient.extremes_check t = true).
  { apply (all_from_spec ExactClient.extremes_check 199 1%Z);
      [vm_compute; reflexivity | lia]. }
  assert (D := all_from_spec _ _ _ C c ltac:(lia)). cbv zeta in D.
  apply Bool.andb_true_iff in D as [D D3].
  apply Bool.andb_true_iff in D as [D1 D2].
  apply Bool.eqb_prop in D1, D2, D3. auto.
Qed.

(** The three tests on the progress of a filtered count, in terms of the
    list. *)
Lemma progress_tests {A} (f : A -> bool) (l : list A) :
  (List.length l <= 199)%nat ->
  let v := ExactClient.progress_of (Z.of_nat (List.length (filter f l)))
                                   (Z.of_nat (List.length l)) in
  (v =? 100) = negb (Nat.eqb (List.length l) 0) && forallb f l
  /\ (0 <? v) = existsb f l
  /\ ((0 <? v) && (v <? 100) = existsb f l && negb (forallb f l)).
Proof.
  intros Ht. cbv zeta.
  pose proof (filter_length_le f l) as Hc.
  destruct l as [| x l'] eqn:El; [repeat split|].
  rewrite <- El in *.
  assert (T : (1 <= Z.of_nat (List.length l) <= 199)%Z)
    by (rewrite El in *; cbn [List.length] in *; lia).
  destruct (progress_extreme_counts
              (Z.of_nat (List.length (filter f l)))
              (Z.of_nat (List.length l)) ltac:(lia) T) as (E100 & E0 & E99).
  cbv zeta in E100, E0, E99.
  assert (N : Nat.eqb (List.length l) 0 = false)
    by (apply Nat.eqb_neq; lia).
  rewrite E100, E0, E99, N. cbn [negb andb].
  assert (A1 : (Z.of_nat (List.length (filter f l)) =? Z.of_nat (List.length l))%Z
               = forallb f l).
  { destruct (forallb f l) eqn:F.
    - apply Z.eqb_eq. apply filter_length_all in F. lia.
    - apply Z.eqb_neq. intros E. apply Nat2Z.inj in E.
      apply filter_length_all in E. congruence. }
  assert (A2 : (0 <? Z.of_nat (List.length (filter f l)))%Z = existsb f l).
  { destruct (existsb f l) eqn:F.
    - apply Z.ltb_lt.
      destruct (List.length (filter f l)) eqn:L; [|lia].
      apply filter_length_none in L. congruence.
    - apply Z.ltb_ge. apply filter_length_none in F. lia. }
  assert (A3 : (Z.of_nat (List.length (filter f l)) <? Z.of_nat (List.length l))%Z
               = negb (forallb f l)).
  { rewrite <- A1. rewrite Z.ltb_antisym.
    destruct (Z.eqb_spec (Z.of_nat (List.length (filter f l)))
                         (Z.of_nat (List.length l))) as [E | E]; cbn.
    - apply Bool.negb_false_iff, Z.leb_le. lia.
    - apply Bool.negb_true_iff, Z.leb_gt. lia. }
  rewrite A1, A2, A3. auto.
Qed.

Variable project : ProjectWithItems.

(** X11. With up to 39 items the progress shown is the percentage of
    completed items rounded half up, computed exactly.  The bound is
    sharp: with 23 of 40 items completed the page shows 57, one short of
    the 58 of the exact percentage 57.5. *)
Theorem progress_is_exact :
  ((List.length (checklistItems project) <= 39)%nat ->
   progress project
   = of_Z (ExactClient.percent
             (Z.of_nat (List.length (filter ExactClient.completed
                                            (checklistItems project))))
             (Z.of_nat (List.length (checklistItems project)))))
  /\ (let page := ExactClient.sample_page "em_andamento"
                     (repeat 1 23 ++ repeat 0 17) in
      List.length (checklistItems page) = 40%nat
      /\ List.length (filter ExactClient.completed (checklistItems page))
         = 23%nat
      /\ progress page = 57
      /\ ExactClient.percent 23 40 = 58%Z).
Proof.
  split; [|vm_compute; repeat split].
  intros Ht.
  change (progress project)
    with (ExactClient.progress_of
            (Z.of_nat (List.length (filter ExactClient.completed
                                           (checklistItems project))))
            (Z.of_nat (List.length (checklistItems project)))).
  pose proof (filter_length_le ExactClient.completed (checklistItems project))
    as Hc.
  destruct (checklistItems project) as [| x l] eqn:El; [reflexivity|].
  rewrite <- El in *.
  apply progress_exact_counts; [lia|].
  rewrite El in *. cbn [List.length] in *. lia.
Qed.

(** X12. With up to 199 items the progress shown is 100 exactly when there
    are items and all are completed, and positive exactly when some item is
    completed. *)
Theorem progress_extremes :
  (List.length (checklistItems project) <= 199)%nat ->
  ((progress project =? 100) = true
   <-> checklistItems project <> []
       /\ forallb ExactClient.completed (checklistItems project) = true)
  /\ ((0 <? progress project) = true
      <-> existsb ExactClient.completed (checklistItems project) = true).
Proof.
  intros Ht.
  change (progress project)
    with (ExactClient.progress_of
            (Z.of_nat (List.length (filter ExactClient.completed
                                           (checklistItems project))))
            (Z.of_nat (List.length (checklistItems project)))).
  destruct (progress_tests ExactClient.completed (checklistItems project) Ht)
    as (E100 & E0 & _).
  rewrite E100, E0. split; [|tauto].
  rewrite Bool.andb_true_iff, Bool.negb_true_iff, Nat.eqb_neq.
  rewrite length_zero_iff_nil. tauto.
Qed.

End Progress.

Section AutoStatus.

Import ProjectDetails.

Variables (project : ProjectWithItems) (itemId : number) (flag : bool).

(** The progress [handleCheckboxChange] computes for the list after the
    change. *)
Let newProgress : number :=
  ExactClient.progress_of
    (Z.of_nat (List.length (filter (ExactClient.completed_after itemId flag)
                                   (checklistItems project))))
    (Z.of_nat (List.length (checklistItems project))).

Lemma decide_status (v : number) (S : string) (pid : number) :
  (let newStatus :=
     if (v =? 100) && negb (String.eqb S "concluido") then "concluido"
     else if (0 <? v) && (v <? 100) && String.eqb S "planejamento"
     then "em_andamento" else S in
   if negb (String.eqb newStatus S) then Some (pid, newStatus) else None)
  = if (v =? 100) && negb (String.eqb S "concluido")
    then Some (pid, "concluido")
    else if (0 <? v) && (v <? 100) && String.eqb S "planejamento"
    then Some (pid, "em_andamento")
    else None.
Proof.
  cbv zeta.
  destruct ((v =? 100) && negb (String.eqb S "concluido")) eqn:EA.
  - apply Bool.andb_true_iff in EA as [_ EA].
    apply Bool.negb_true_iff in EA. rewrite String.eqb_sym, EA. reflexivity.
  - destruct ((0 <? v) && (v <? 100) && String.eqb S "planejamento") eqn:EB.
    + apply Bool.andb_true_iff in EB as [_ EB]. apply String.eqb_eq in EB.
      rewrite EB. reflexivity.
    + rewrite String.eqb_refl. reflexivity.
Qed.

Lemma handleCheckboxChange_status :
  status_update (handleCheckboxChange project itemId flag)
  = if (newProgress =? 100) && negb (String.eqb (status project) "concluido")
    then Some (project_id project, "concluido")
    else if (0 <? newProgress) && (newProgress <? 100)
            && String.eqb (status project) "planejamento"
    then Some (project_id project, "em_andamento")
    else None.
Proof.
  exact (decide_status newProgress (status project) (project_id project)).
Qed.

(** X13. Whatever the project and the checkbox, the status update that
    [handleCheckboxChange] may send is addressed to the project, differs
    from its current status, and is [concluido], or [em_andamento] for a
    project in [planejamento] -- both accepted by the status route; a
    concluded project gets no update, and the item update carries 1 or 0. *)
Theorem auto_status_is_accepted :
  match status_update (handleCheckboxChange project itemId flag) with
  | None => True
  | Some (pid, s) =>
      pid = project_id project
      /\ Handlers.status_accepted s = true
      /\ s <> status project
      /\ (s = "concluido"
          \/ (s = "em_andamento" /\ status project = "planejamento"))
  end
  /\ (status project = "concluido" ->
      status_update (handleCheckboxChange project itemId flag) = None)
  /\ item_update (handleCheckboxChange project itemId flag)
     = (itemId, if flag then 1 else 0).
Proof.
  rewrite handleCheckboxChange_status.
  split; [|split; [|reflexivity]].
  - destruct ((newProgress =? 100)
              && negb (String.eqb (status project) "concluido")) eqn:EA.
    + apply Bool.andb_true_iff in EA as [_ EA].
      apply Bool.negb_true_iff, String.eqb_neq in EA.
      repeat split; auto.
    + destruct ((0 <? newProgress) && (newProgress <? 100)
                && String.eqb (status project) "planejamento") eqn:EB;
        [|exact I].
      apply Bool.andb_true_iff in EB as [_ EB]. apply String.eqb_eq in EB.
      repeat split; auto. rewrite EB. discriminate.
  - intros Ec. rewrite Ec. cbn.
    rewrite !Bool.andb_false_r. reflexivity.
Qed.

(** X14. With up to 199 items, the update sent is [concluido] exactly when
    the project is not concluded yet and, after the change, there are items
    and all are completed; it is [em_andamento] exactly when the project is
    in [planejamento] and, after the change, some but not all items are
    completed. *)
Theorem auto_status_follows_completion :
  (List.length (checklistItems project) <= 199)%nat ->
  let after := ExactClient.completed_after itemId flag in
  let sent := status_update (handleCheckboxChange project itemId flag) in
  (sent = Some (project_id project, "concluido")
   <-> status project <> "concluido"
       /\ checklistItems project <> []
       /\ forallb after (checklistItems project) = true)
  /\ (sent = Some (project_id project, "em_andamento")
      <-> status project = "planejamento"
          /\ existsb after (checklistItems project) = true
          /\ forallb after (checklistItems project) = false).
Proof.
  intros Ht after sent. subst sent after.
  rewrite handleCheckboxChange_status. unfold newProgress.
  destruct (progress_tests (ExactClient.completed_after itemId flag)
              (checklistItems project) Ht) as (E100 & _ & Emid).
  cbv zeta in E100, Emid. rewrite E100, Emid.
  assert (N : negb (Nat.eqb (List.length (checklistItems project)) 0) = true
              <-> checklistItems project <> []).
  { rewrite Bool.negb_true_iff, Nat.eqb_neq, length_zero_iff_nil. tauto. }
  destruct (String.eqb_spec (status project) "concluido") as [Ec | Ec];
    destruct (String.eqb_spec (status project) "planejamento") as [Ep | Ep];
    destruct (negb (Nat.eqb (List.length (checklistItems project)) 0));
    destruct (forallb (ExactClient.completed_after itemId flag)
                      (checklistItems project));
    destruct (existsb (ExactClient.completed_after itemId flag)
                      (checklistItems project));
    cbn [andb negb]; split; split;
    try (intros H; discriminate H);
    try (intros (H1 & H2 & H3); try congruence; try discriminate;
         try (apply N in H2; discriminate H2); try (exfalso; tauto));
    try (intros _; repeat split; auto; tauto);
    try congruence.
Qed.

End AutoStatus.

Lemma progress_is_exact_witness :
  ProjectDetails.progress
    (ExactClient.sample_page "em_andamento" [1; 0; 1; 0; 0; 0; 0; 0; 1; 0; 0])
  = 27.
Proof.
  rewrite (proj1 (progress_is_exact
                    (ExactClient.sample_page "em_andamento"
                       [1; 0; 1; 0; 0; 0; 0; 0; 1; 0; 0])))
    by (cbn; lia).
  reflexivity.
Defined.

Lemma progress_extremes_witness :
  (ProjectDetails.progress
     (ExactClient.sample_page "em_andamento" [1; 1; 1; 1; 1; 1; 1]) =? 100)
  = true
  /\ (0 <? ProjectDetails.progress
             (ExactClient.sample_page "planejamento" [0; 0; 1; 0; 0; 0; 0]))
     = true.
Proof.
  split.
  - apply (proj1 (progress_extremes
                    (ExactClient.sample_page "em_andamento"
                       [1; 1; 1; 1; 1; 1; 1]) ltac:(cbn; lia))).
    split; [discriminate | reflexivity].
  - apply (proj2 (progress_extremes
                    (ExactClient.sample_page "planejamento"
                       [0; 0; 1; 0; 0; 0; 0]) ltac:(cbn; lia))).
    reflexivity.
Defined.

Lemma auto_status_follows_completion_witness :
  ProjectDetails.status_update
    (ProjectDetails.handleCheckboxChange
       (ExactClient.sample_page "em_andamento" [1; 1; 0; 1; 1; 1; 1]) 3 true)
  = Some (1, "concluido").
Proof.
  apply (proj1 (auto_status_follows_completion
                  (ExactClient.sample_page "em_andamento"
                     [1; 1; 0; 1; 1; 1; 1])
                  3 true ltac:(cbn; lia))).
  split; [discriminate|]. split; [discriminate | reflexivity].
Defined.

(** X15. The first check on a new project: when the rows hold the
    [isCompleted] values the create route stored for a generated checklist,
    the project is in [planejamento] and exactly one row has the item's id,
    checking that item sends the item update with 1 and moves the project to
    [em_andamento]. *)
Theorem first_check_starts_project
    (p : ProjectData) (project : ProjectDetails.ProjectWithItems)
    (itemId : number) :
  map ProjectDetails.isCompleted (ProjectDetails.checklistItems project)
  = map Handlers.isCompleted
        (Handlers.checklistItems (ProjectDetails.project_id project) p) ->
  List.length (filter (fun item => ProjectDetails.id item =? itemId)
                      (ProjectDetails.checklistItems project)) = 1%nat ->
  ProjectDetails.status project = "planejamento" ->
  ProjectDetails.item_update
    (ProjectDetails.handleCheckboxChange project itemId true) = (itemId, 1)
  /\ ProjectDetails.status_update
       (ProjectDetails.handleCheckboxChange project itemId true)
     = Some (ProjectDetails.project_id project, "em_andamento").
Proof.
  intros Hrows Hone Hst. split; [reflexivity|].
  set (items := ProjectDetails.checklistItems project) in *.
  (* the rows are as many as the generated items, and none is completed *)
  assert (L : List.length items = List.length (generateChecklistItems p)).
  { apply (f_equal (@List.length _)) in Hrows.
    rewrite !length_map in Hrows. unfold Handlers.checklistItems in Hrows.
    rewrite length_map in Hrows. exact Hrows. }
  assert (Z0 : forall item, In item items ->
                            truthy (ProjectDetails.isCompleted item) = false).
  { intros item Hin.
    assert (I : In (ProjectDetails.isCompleted item)
                   (map ProjectDetails.isCompleted items))
      by (apply in_map; exact Hin).
    rewrite Hrows in I. apply in_map_iff in I. destruct I as (x & Hx & Hin').
    unfold Handlers.checklistItems in Hin'. apply in_map_iff in Hin'.
    destruct Hin' as (y & <- & _). cbn in Hx. rewrite <- Hx. reflexivity. }
  assert (F : filter (ExactClient.completed_after itemId true) items
              = filter (fun item => ProjectDetails.id item =? itemId) items).
  { apply filter_ext_in. intros item Hin. unfold ExactClient.completed_after.
    rewrite (Z0 item Hin).
    destruct (ProjectDetails.id item =? itemId); reflexivity. }
  assert (T : (7 <= List.length items <= 12)%nat).
  { rewrite L.
    destruct (generate_split p)
      as (a & b1 & b2 & b3 & b4 & b5 & b6 & E & _ & _).
    rewrite E, !length_app.
    destruct (getStructureItems_shape (roofType p) (solarPanelsCount p)
                (Some (stringsOf p))) as [_ ->].
    unfold structure_count. cbn [List.length].
    destruct (String.eqb (roofType p) "fibrocimento"); [lia|].
    destruct (known_roof (roofType p)); lia. }
  rewrite handleCheckboxChange_status. cbv zeta. fold items.
  destruct (progress_tests (ExactClient.completed_after itemId true) items
              ltac:(lia)) as (E100 & _ & Emid).
  cbv zeta in E100, Emid. rewrite E100, Emid, Hst.
  assert (A : forallb (ExactClient.completed_after itemId true) items = false).
  { destruct (forallb (ExactClient.completed_after itemId true) items) eqn:A;
      [|reflexivity].
    apply filter_length_all in A. rewrite F, Hone in A. lia. }
  assert (B : existsb (ExactClient.completed_after itemId true) items = true).
  { destruct (existsb (ExactClient.completed_after itemId true) items) eqn:B;
      [reflexivity|].
    apply filter_length_none in B. rewrite F, Hone in B. discriminate B. }
  rewrite A, B. rewrite Bool.andb_false_r. reflexivity.
Qed.

Lemma first_check_starts_project_witness :
  ProjectDetails.status_update
    (ProjectDetails.handleCheckboxChange
       (ExactClient.sample_page "planejamento" [0; 0; 0; 0; 0; 0; 0]) 4 true)
  = Some (1, "em_andamento").
Proof.
  apply (first_check_starts_project (sample "laje" "3.3" 6)
           (ExactClient.sample_page "planejamento" [0; 0; 0; 0; 0; 0; 0]) 4);
    reflexivity.
Defined.

(* ================================================================== *)
(** * The home page *)
(* ================================================================== *)

Section Counters.

Variable Project : Type.
Variable status : Project -> string.

(** X16. The three counters of the home page never count a project twice,
    and they add up to the number of projects exactly when every project has
    one of the three statuses the status route accepts. *)
Theorem counters_partition (projects : list Project) :
  let counted :=
    (Home.completedProjects Project status projects
     + Home.inProgressProjects Project status projects
     + Home.planningProjects Project status projects)%nat in
  (counted <= List.length projects)%nat
  /\ (counted = List.length projects
      <-> Forall (fun p => Handlers.status_accepted (status p) = true)
                 projects).
Proof.
  unfold Home.completedProjects, Home.inProgressProjects,
    Home.planningProjects.
  induction projects as [| x l [IHle IHeq]]; cbv zeta in *.
  - split; [cbn; lia | split; [constructor | reflexivity]].
  - cbn [filter List.length].
    rewrite Forall_cons_iff, <- IHeq.
    unfold Handlers.status_accepted. cbn [existsb].
    destruct (String.eqb_spec (status x) "concluido") as [E1 | E1];
      destruct (String.eqb_spec (status x) "em_andamento") as [E2 | E2];
      destruct (String.eqb_spec (status x) "planejamento") as [E3 | E3];
      try (rewrite E1 in *; discriminate);
      try (rewrite E2 in *; discriminate);
      cbn [List.length orb]; split; try lia;
      split; try (intros H; split; [reflexivity | lia]);
      try (intros [_ H]; lia);
      try (intros H; exfalso; lia);
      try (intros [H _]; discriminate H).
Qed.

End Counters.

(* ================================================================== *)
(** * What the power check reads of its string *)
(* ================================================================== *)

Section TrailingText.

Variable t : string.

Let tail : string := String " " t.

Lemma is_space2_space (c1 : ascii) : is_space2 c1 " " = false.
Proof. unfold is_space2. apply Bool.andb_false_r. Qed.

Lemma is_space3_space_mid (c1 c3 : ascii) : is_space3 c1 " " c3 = false.
Proof.
  unfold is_space3.
  change (byte_is " " 154) with false. change (byte_is " " 128) with false.
  change (byte_is " " 129) with false. change (byte_is " " 187) with false.
  rewrite !Bool.andb_false_r. reflexivity.
Qed.

Lemma is_space3_space_end (c1 c2 : ascii) : is_space3 c1 c2 " " = false.
Proof.
  unfold is_space3. cbv zeta.
  change (N_of_ascii " ") with 32%N.
  change (byte_is " " 128) with false. change (byte_is " " 159) with false.
  change (byte_is " " 191) with false.
  cbn [N.leb N.eqb N.compare Pos.compare Pos.compare_cont Pos.eqb andb orb].
  rewrite !Bool.andb_false_r. reflexivity.
Qed.

(** Leading white space is trimmed the same way before the appended text,
    unless the string is white space only. *)
Lemma trimStart_app_space (n : nat) :
  forall s, (String.length s <= n)%nat -> trimStart s <> "" ->
  trimStart (s ++ tail) = trimStart s ++ tail.
Proof.
  induction n as [| n IH]; intros s Hlen Hne.
  - destruct s; [contradiction Hne; reflexivity | cbn in Hlen; lia].
  - destruct s as [| c1 r1]; [contradiction Hne; reflexivity|].
    cbn [append]. cbn [trimStart] in *.
    destruct (is_space1 c1).
    { apply IH; [cbn in Hlen; lia | exact Hne]. }
    destruct r1 as [| c2 r2].
    { cbn [append]. unfold tail at 1. rewrite is_space2_space.
      destruct t as [| c3 r3]; [reflexivity|].
      rewrite is_space3_space_mid. reflexivity. }
    cbn [append].
    destruct (is_space2 c1 c2).
    { apply IH; [cbn in Hlen; lia | exact Hne]. }
    destruct r2 as [| c3 r3].
    { cbn [append]. unfold tail at 1. rewrite is_space3_space_end.
      reflexivity. }
    cbn [append].
    destruct (is_space3 c1 c2 c3).
    { apply IH; [cbn in Hlen; lia | exact Hne]. }
    reflexivity.
Qed.

Lemma read_digits_app_space (u : string) :
  forall acc count,
    read_digits (u ++ tail) acc count
    = let '(a, c, rest) := read_digits u acc count in (a, c, rest ++ tail).
Proof.
  induction u as [| c u IH]; intros acc count.
  - reflexivity.
  - cbn [append read_digits]. destruct (digit_of c); [apply IH | reflexivity].
Qed.

Lemma prefix_Infinity_app_space (v : string) :
  prefix "Infinity" (v ++ tail) = prefix "Infinity" v.
Proof.
  assert (G : forall p v,
             ~ In " "%char (list_ascii_of_string p) ->
             prefix p (v ++ tail) = prefix p v).
  { induction p as [| a p IH]; intros w Hp.
    - destruct w; reflexivity.
    - destruct w as [| b w].
      + cbn. destruct (ascii_dec a " ") as [E | E]; [|reflexivity].
        exfalso. apply Hp. left. exact E.
      + cbn. destruct (ascii_dec a b); [|reflexivity].
        apply IH. intros H. apply Hp. right. exact H. }
  apply G. cbn. intuition discriminate.
Qed.

Lemma read_exponent_app_space (u : string) :
  read_exponent (u ++ tail) = read_exponent u.
Proof.
  destruct u as [| c r]; [reflexivity|].
  cbn [append]. unfold read_exponent.
  destruct (byte_is c 101 || byte_is c 69); [|reflexivity].
  destruct r as [| c' r'].
  - reflexivity.
  - cbn [append].
    destruct (byte_is c' 45).
    { rewrite read_digits_app_space.
      destruct (read_digits r' 0 0) as [[v count] rest]. reflexivity. }
    destruct (byte_is c' 43).
    { rewrite read_digits_app_space.
      destruct (read_digits r' 0 0) as [[v count] rest]. reflexivity. }
    change (String c' (r' ++ tail)) with (String c' r' ++ tail).
    rewrite read_digits_app_space.
    destruct (read_digits (String c' r') 0 0) as [[v count] rest].
    reflexivity.
Qed.

End TrailingText.

Section TrailingText2.

Variable t : string.

(** The number read after the sign, from [v] and from [v] followed by a
    space and [t]. *)
Ltac same_rest v :=
  rewrite (prefix_Infinity_app_space t v);
  destruct (prefix "Infinity" v); [reflexivity|];
  rewrite (read_digits_app_space t v);
  let iv := fresh "iv" in
  let inn := fresh "inn" in
  let s1 := fresh "s1" in
  destruct (read_digits v 0 0) as [[iv inn] s1];
  destruct s1 as [| c r];
  [ cbn [append]; change (byte_is " " 46) with false; cbv iota beta;
    destruct ((inn =? 0)%Z && (0 =? 0)%Z); [reflexivity|];
    change (String " " t) with ("" ++ String " " t);
    rewrite (read_exponent_app_space t ""); reflexivity
  | cbn [append];
    destruct (byte_is c 46);
    [ rewrite (read_digits_app_space t r);
      let v' := fresh "v" in
      let total := fresh "total" in
      let r' := fresh "r" in
      destruct (read_digits r iv 0) as [[v' total] r'];
      destruct ((inn =? 0)%Z && (total =? 0)%Z);
      [ destruct ((inn =? 0)%Z && (0 =? 0)%Z); [reflexivity|];
        change (String c (r ++ String " " t))
          with (String c r ++ String " " t);
        rewrite (read_exponent_app_space t (String c r)); reflexivity
      | destruct ((inn =? 0)%Z && (total =? 0)%Z); [reflexivity|];
        rewrite (read_exponent_app_space t r'); reflexivity ]
    | destruct ((inn =? 0)%Z && (0 =? 0)%Z); [reflexivity|];
      change (String c (r ++ String " " t))
        with (String c r ++ String " " t);
      rewrite (read_exponent_app_space t (String c r)); reflexivity ] ].

Lemma parseFloat_app_space (s : string) :
  trimStart s <> "" -> parseFloat (s ++ String " " t) = parseFloat s.
Proof.
  intros Hne. unfold parseFloat.
  rewrite (trimStart_app_space t (String.length s) s (le_n _) Hne).
  destruct (trimStart s) as [| c0 u0]; [contradiction Hne; reflexivity|].
  cbn [append].
  destruct (byte_is c0 45); [same_rest u0|].
  destruct (byte_is c0 43); [same_rest u0|].
  change (String c0 (u0 ++ String " " t)) with (String c0 u0 ++ String " " t).
  same_rest (String c0 u0).
Qed.

Lemma parseFloat_blank (s : string) : trimStart s = "" -> parseFloat s = nan.
Proof. intros H. unfold parseFloat. rewrite H. reflexivity. Qed.

End TrailingText2.

(** X17. The power check reads a numeric prefix only: a power that passes
    still passes, with the same value, when a space and any text are
    appended to it. *)
Theorem power_check_ignores_trailing_text (s t : string) :
  Schema.inverterPower_check s = true ->
  parseFloat (s ++ " " ++ t) = parseFloat s
  /\ Schema.inverterPower_check (s ++ " " ++ t) = true.
Proof.
  intros H.
  assert (E : parseFloat (s ++ " " ++ t) = parseFloat s).
  { apply parseFloat_app_space. intros B.
    unfold Schema.inverterPower_check in H.
    rewrite (parseFloat_blank s B) in H. discriminate H. }
  split; [exact E|].
  unfold Schema.inverterPower_check in *. rewrite E. exact H.
Qed.

Lemma power_check_ignores_trailing_text_witness :
  parseFloat "5.5 kW (trifasico)" = 5.5
  /\ Schema.inverterPower_check "5.5 kW (trifasico)" = true.
Proof.
  apply (power_check_ignores_trailing_text "5.5" "kW (trifasico)").
  reflexivity.
Defined.

(* ================================================================== *)
(** * The details sent for analysis *)
(* ================================================================== *)

Lemma analysis_count_checked (n : Z) :
  (1 <= n <= 200)%Z -> Analysis.count_check n = true.
Proof.
  intros Hn.
  apply (all_from_spec Analysis.count_check 200 1%Z);
    [vm_compute; reflexivity | lia].
Qed.

Lemma analysis_power_checked (k : Z) :
  (30 <= k <= 1000)%Z -> Analysis.power_check k = true.
Proof.
  intros Hk.
  apply (all_from_spec Analysis.power_check 971 30%Z);
    [vm_compute; reflexivity | lia].
Qed.

(** X18. For a stored project with 1 to 200 panels and a power of
    [k / 10] kW within the schema's range, the analysis route sends the
    model the panel count, the power as stored (not floored), the roof type,
    the generator's string configuration, and 0.55 kW per panel with two
    decimals, all exact. *)
Theorem analysis_details_are_exact (project : ProjectData) (n k : Z) :
  solarPanelsCount project = of_Z n -> (1 <= n <= 200)%Z ->
  parseFloat (inverterPower project) = round_ratio k 10 ->
  (30 <= k <= 1000)%Z ->
  Analysis.route_details project
  = Some (Analysis.exact_details (roofType project) k n)
  /\ fst (fst (stringConfiguration (solarPanelsCount project)))
     = Exact.stringConfig n.
Proof.
  intros Hs Hn Hp Hk.
  pose proof (analysis_count_checked n Hn) as C.
  unfold Analysis.count_check in C.
  apply Bool.andb_true_iff in C as [C1 C2]. apply String.eqb_eq in C2.
  assert (T : Number_toString (round_ratio k 10) = Exact.decimal1 k).
  { pose proof (power_text_exact k ltac:(lia)) as E.
    rewrite (Math_max_above_floor _ (analysis_power_checked k Hk)) in E.
    rewrite E. unfold Exact.adjusted. f_equal. lia. }
  split.
  - unfold Analysis.route_details, Analysis.projectDetails,
      analyze_stringConfig.
    cbv zeta. rewrite Hs, Hp.
    destruct (Number_toFixed (of_Z n * 0.55) 2) as [total|];
      [|discriminate C1].
    apply String.eqb_eq in C1.
    rewrite C1, C2, T, (toString_small n ltac:(lia)). reflexivity.
  - unfold stringConfiguration. rewrite Hs, <- C2.
    destruct (8 <? of_Z n); reflexivity.
Qed.

Lemma analysis_details_are_exact_witness :
  Analysis.route_details (sample_full "metalico" "11.00" 20)
  = Some (Analysis.exact_details "metalico" 110 20).
Proof.
  apply (analysis_details_are_exact (sample_full "metalico" "11.00" 20)
           20 110); [reflexivity | lia | vm_compute; reflexivity | lia].
Defined.
